(** * just_News: bounded deduplication and the news classification cycle

    A shallow embedding of [main.py]: the [BoundedDedup] class, the text
    utilities, [hf_classify], [fetch_rss] and the body of [update_news],
    followed by the properties of the polling cycle.

    Python values are modelled as follows.
    - A [str] is the list of its Unicode code points.
    - A [float] is an IEEE binary64 number ([PrimFloat.float]).
    - An [int] is a [Z].
    - A [set] of strings is a [gset]; a [deque] is a list with its [maxlen].
    - A raised exception is the [Raise] outcome of the [result] monad; the
      worker, which catches nothing, leaves a state and the exception that
      ended it, if any. *)

From Stdlib Require Import ZArith NArith List String Ascii Floats SpecFloat Lia.
From stdpp Require Import base gmap sets list fin_sets.
From Equations Require Import Equations.

#[local] Open Scope Z_scope.

(** ** Python strings *)

Abbreviation str := (list N).

Module PyStr.

(** A string literal of the source, limited to ASCII characters. *)
Definition lit (s : string) : str := map N_of_ascii (list_ascii_of_string s).
#[global] Arguments lit s%_string.

(** [str.isspace] on one code point: the characters [str.strip] removes. *)
Definition isspace (c : N) : bool :=
  ((9 <=? c) && (c <=? 13) || (28 <=? c) && (c <=? 32)
   || (c =? 133) || (c =? 160) || (c =? 5760)
   || (8192 <=? c) && (c <=? 8202)
   || (c =? 8232) || (c =? 8233) || (c =? 8239) || (c =? 8287)
   || (c =? 12288))%N.

Fixpoint lstrip (s : str) : str :=
  match s with
  | c :: s' => if isspace c then lstrip s' else s
  | [] => []
  end.

Definition rstrip (s : str) : str := rev (lstrip (rev s)).

(** [s.strip()] *)
Definition strip (s : str) : str := rstrip (lstrip s).

(** [t.startswith(p)] *)
Fixpoint startswith (t p : str) : bool :=
  match p, t with
  | [], _ => true
  | _ :: _, [] => false
  | x :: p', y :: t' => (x =? y)%N && startswith t' p'
  end.

(** [p in t] for two strings: [p] occurs in [t] as a substring. *)
Fixpoint contains (t p : str) : bool :=
  startswith t p ||
  match t with
  | [] => false
  | _ :: t' => contains t' p
  end.

(** Truth value of a string: [bool(s)]. *)
Definition nonempty (s : str) : bool :=
  match s with [] => false | _ :: _ => true end.

(** Lower-casing of the letters A to Z, the part of [str.lower] that
    concerns ASCII text. *)
Definition ascii_lower (s : str) : str :=
  map (fun c => if ((65 <=? c) && (c <=? 90))%N then (c + 32)%N else c) s.

End PyStr.

(** ** Exceptions *)

Inductive exn : Set :=
| KeyError | IndexError | TypeError | ValueError | OverflowError
| AttributeError | RequestException | JSONDecodeError | MarkupError.

Inductive result (A : Type) : Type :=
| Ok (a : A)
| Raise (e : exn).
Arguments Ok {A} a.
Arguments Raise {A} e.

#[global] Instance result_ret : MRet result := fun A => @Ok A.
#[global] Instance result_bind : MBind result :=
  fun A B f m => match m with Ok a => f a | Raise e => Raise e end.

(** [try: m  except Exception: h] *)
Definition try_except {A} (m : result A) (h : exn -> A) : A :=
  match m with Ok a => a | Raise e => h e end.

Definition raises {A} (m : result A) : Prop := exists e, m = Raise e.

(** ** collections.deque with a maximum length *)

(** The largest [Py_ssize_t], on a 64-bit build of the interpreter. *)
Definition PY_SSIZE_T_MAX : Z := 2 ^ 63 - 1.

Module Deque.

Record deque := { maxlen : Z; items : list str }.

(** [deque(maxlen=n)]: an [n] that does not fit a [Py_ssize_t] is an
    [OverflowError], a negative [n] a [ValueError]. *)
Definition new (n : Z) : result deque :=
  if (n <? - PY_SSIZE_T_MAX - 1) || (PY_SSIZE_T_MAX <? n)
  then Raise OverflowError
  else if n <? 0 then Raise ValueError
  else Ok {| maxlen := n; items := [] |}.

(** [d.append(x)]: the item is added on the right and, when the deque is
    then longer than [maxlen], the leftmost item is dropped. *)
Definition append (d : deque) (x : str) : deque :=
  let l := items d ++ [x] in
  {| maxlen := maxlen d;
     items := if maxlen d <? Z.of_nat (length l) then tail l else l |}.

Definition len (d : deque) : nat := length (items d).

End Deque.

(** ** class BoundedDedup *)

Module BoundedDedup.

Record t := { capacity : Z; queue : Deque.deque; set : gset str }.

(** [__init__] *)
Definition init (capacity : Z) : result t :=
  q ← Deque.new capacity;
  mret {| capacity := capacity; queue := q; set := ∅ |}.

(** The object [__init__] builds for a capacity that is not negative. *)
Definition empty (capacity : Z) : t :=
  {| capacity := capacity;
     queue := {| Deque.maxlen := capacity; Deque.items := [] |};
     set := ∅ |}.

(** The [for s in list(self.set)] scan: the first member of the set, in
    its iteration order, that is not in the queue. *)
Definition first_stale (st : gset str) (q : list str) : option str :=
  List.find (fun s => negb (bool_decide (s ∈ q))) (elements st).

(** The [while len(self.set) > len(self.queue)] loop of [seen]. Each
    round removes one member of the set, or leaves the loop through the
    [else: break] of the [for]. [self.set.remove(s)] is a [KeyError] when
    [s] is not in the set. *)
Equations? shrink (st : gset str) (q : list str) : result (gset str)
  by wf (size st) lt :=
shrink st q with decide (length q < size st)%nat := {
  | right _ := Ok st
  | left _ with first_stale st q := {
      | None := Ok st
      | Some s with decide (s ∈ st) := {
          | left _ := shrink (st ∖ {[s]}) q
          | right _ := Raise KeyError } } }.
Proof. by apply subset_size, subset_difference_elem_of. Qed.

(** [seen] *)
Definition seen (d : t) (key : str) : result (bool * t) :=
  let k := PyStr.strip key in
  if decide (k ∈ set d) then Ok (true, d)
  else
    let q := Deque.append (queue d) k in
    st ← shrink ({[k]} ∪ set d) (Deque.items q);
    mret (false, {| capacity := capacity d; queue := q; set := st |}).

(** A sequence of [seen] calls, with the results in call order. *)
Fixpoint seen_all (d : t) (keys : list str) : result (list bool * t) :=
  match keys with
  | [] => Ok ([], d)
  | key :: keys' =>
      '(b, d') ← seen d key;
      '(bs, d'') ← seen_all d' keys';
      mret (b :: bs, d'')
  end.

(** The state the constructor and [seen] maintain: the queue was built
    with [maxlen = capacity], holds distinct keys, at most [capacity] of
    them, and the set holds the same keys. *)
Definition consistent (d : t) : Prop :=
  0 <= capacity d /\
  Deque.maxlen (queue d) = capacity d /\
  NoDup (Deque.items (queue d)) /\
  (Z.of_nat (length (Deque.items (queue d))) <= capacity d) /\
  set d = list_to_set (Deque.items (queue d)).

(** The answers of a store that remembers only the latest key: a call
    answers [True] exactly when its key, stripped, is the key of the call
    before it. This follows the words of the specification and is
    compared with [seen_all] at capacity 1. *)
Fixpoint remembers_latest (prev : option str) (keys : list str) : list bool :=
  match keys with
  | [] => []
  | key :: keys' =>
      bool_decide (prev = Some (PyStr.strip key))
        :: remembers_latest (Some (PyStr.strip key)) keys'
  end.

End BoundedDedup.

(** ** Values decoded from JSON *)

(** What [resp.json()] can return: [None], a [bool], an [int], a [float], a
    [str], a [list] or a [dict] with string keys. A [dict] is the list of its
    entries, each key once. *)
#[warnings="-register-all"]
Inductive value : Type :=
| VNone
| VBool (b : bool)
| VInt (n : Z)
| VFloat (f : float)
| VStr (s : str)
| VList (l : list value)
| VDict (kv : list (str * value)).

(** Builtins of Python whose tables are not part of the repository. *)
Class Builtins := {
  (** [s.lower()] *)
  lower : str -> str;
  (** [float(s)] for a [str]; [None] stands for its [ValueError] *)
  float_of_str : str -> option float
}.

(** An instance for examples on ASCII text: the letters A to Z are lowered,
    and [float] reads no string. *)
Definition ascii_builtins : Builtins :=
  {| lower := PyStr.ascii_lower; float_of_str := fun _ => None |}.

Module Py.

(** [v == s] for a string [s] *)
Definition eq_str (v : value) (s : str) : bool :=
  match v with VStr s' => bool_decide (s' = s) | _ => false end.

(** [bool(v)] *)
Definition truthy (v : value) : bool :=
  match v with
  | VNone => false
  | VBool b => b
  | VInt n => negb (n =? 0)
  | VFloat f => negb (PrimFloat.eqb f 0)
  | VStr s => PyStr.nonempty s
  | VList l => match l with [] => false | _ => true end
  | VDict kv => match kv with [] => false | _ => true end
  end.

(** [s in v] for a string [s] *)
Definition contains (v : value) (s : str) : result bool :=
  match v with
  | VDict kv => Ok (existsb (fun e => bool_decide (e.1 = s)) kv)
  | VList l => Ok (existsb (fun x => eq_str x s) l)
  | VStr t => Ok (PyStr.contains t s)
  | _ => Raise TypeError
  end.

Fixpoint dict_get (kv : list (str * value)) (s : str) : option value :=
  match kv with
  | [] => None
  | (k, x) :: kv' => if bool_decide (k = s) then Some x else dict_get kv' s
  end.

(** [v[s]] for a string [s] *)
Definition getitem (v : value) (s : str) : result value :=
  match v with
  | VDict kv => match dict_get kv s with Some x => Ok x | None => Raise KeyError end
  | _ => Raise TypeError
  end.

(** [v[0]] *)
Definition getitem0 (v : value) : result value :=
  match v with
  | VList (x :: _) => Ok x
  | VList [] => Raise IndexError
  | VStr (c :: _) => Ok (VStr [c])
  | VStr [] => Raise IndexError
  | VDict _ => Raise KeyError
  | _ => Raise TypeError
  end.

(** [float(n)] for an [int]: the nearest binary64 number, ties to even;
    [None] stands for the [OverflowError] of an integer too large. *)
Definition float_of_int (n : Z) : option PrimFloat.float :=
  match binary_normalize 53 1024 n 0 false with
  | S754_infinity _ => None
  | f => Some (SF2Prim f)
  end.

(** [float(v)] *)
Definition float `{Builtins} (v : value) : result PrimFloat.float :=
  match v with
  | VFloat f => Ok f
  | VInt n => match float_of_int n with Some f => Ok f | None => Raise OverflowError end
  | VBool b => Ok (if b then 1 else 0)%float
  | VStr s => match float_of_str s with Some f => Ok f | None => Raise ValueError end
  | _ => Raise TypeError
  end.

End Py.

(** ** Configuration *)

(** The settings read from the environment when the module is loaded. *)
Record config := {
  REFRESH_INTERVAL : Z;
  SHOW_EVERY_CYCLE_SUMMARY : bool;
  HF_ENABLE : bool;
  HF_API_KEY : str;
  HF_SCORE_THRESHOLD : PrimFloat.float;
  HF_MAX_PER_CYCLE : Z;
  SEEN_CAPACITY : Z
}.

Definition CITY_SYNONYMS : gmap str (list str) :=
  <[ PyStr.lit "delhi" :=
       [ PyStr.lit "delhi"; PyStr.lit "new delhi"; PyStr.lit "ndl";
         PyStr.lit "ncr";
         [2342; 2367; 2354; 2381; 2354; 2368]%N;
         [2344; 2312; 32; 2342; 2367; 2354; 2381; 2354; 2368]%N;
         PyStr.lit "dilli" ] ]>
  (<[ PyStr.lit "mumbai" :=
       [ PyStr.lit "mumbai"; PyStr.lit "bombay";
         [2350; 2369; 2306; 2348; 2312]%N ] ]>
  (<[ PyStr.lit "bengaluru" :=
       [ PyStr.lit "bengaluru"; PyStr.lit "bangalore";
         [2348; 2375; 2306; 2327; 2354; 2369; 2352; 2369]%N ] ]> ∅)).

Definition IMPORTANT_KEYWORDS : list str :=
  map PyStr.lit
    [ "earthquake"; "war"; "atomic"; "nuclear"; "blast"; "explosion";
      "terrorist"; "attack"; "murder"; "kill"; "homicide"; "riot"; "violence";
      "fire"; "flood"; "storm"; "hurricane"; "tornado"; "landslide"; "accident";
      "robbery"; "theft"; "cyber attack"; "bomb"; "hostage"; "shooting";
      "curfew"; "evacuation"; "collapse"; "outbreak"; "disease"; "pandemic"
    ]%string.

(** ** The outside world *)

(** What one request to the classification service leads to:
    [requests.post] raises (no connection, timeout), [resp.json()] raises,
    or the decoded body. *)
Inductive reply : Type :=
| PostRaises
| JsonRaises
| Body (data : value).

(** One entry of the parsed feed; an attribute may be missing. *)
Record entry := { e_title : option str; e_link : option str }.

(** What [feedparser.parse] leads to. *)
Inductive feed : Type :=
| ParseRaises
| Parsed (entries : list entry).

(** What the loop asks of the console. [Alert] stands for lines 235 to
    241, [sound_notify()] followed by the [console.print] of the panel, whose
    markup holds the title, the link, the time of day, the label and the
    score. [Summary] stands for the [console.print] of line 245, with the
    time of day, the cycle number and the two counts. *)
Inductive output : Type :=
| Alert (title link : str) (label : value) (score : PrimFloat.float) (time : str)
| Summary (time : str) (cycle : Z) (important total : nat).

(** The collaborators of the loop: the reply of the service to the [n]-th
    call of [hf_classify] made by the loop, the clock reading at the [n]-th
    call of [now_str], and what the console does with an output that holds
    the [n]-th clock reading: [None] when it returns, [Some e] when it
    raises [e], as rich does with [MarkupError] on a closing tag that
    matches no open tag. *)
Class World := {
  remote : nat -> str -> reply;
  now_str : nat -> str;
  console : nat -> output -> option exn
}.

(** A world for examples: the service cannot be reached, the clock stands
    still and the console prints whatever it is given. *)
Definition offline_world : World :=
  {| remote := fun _ _ => PostRaises;
     now_str := fun _ => PyStr.lit "2024-01-01 00:00:00";
     console := fun _ _ => None |}.

(** A world for examples in which the service answers every call with the
    label "flood" at score 0.75. *)
Definition answering_world : World :=
  {| remote := fun _ _ =>
       Body (VDict [ (PyStr.lit "labels", VList [VStr (PyStr.lit "flood")]);
                     (PyStr.lit "scores", VList [VFloat 0.75]) ]);
     now_str := fun _ => PyStr.lit "2024-01-01 00:00:00";
     console := fun _ _ => None |}.

(** A world for examples whose console raises [MarkupError] on an alert
    with a closing tag in its title. *)
Definition markup_world : World :=
  {| remote := fun _ _ => PostRaises;
     now_str := fun _ => PyStr.lit "2024-01-01 00:00:00";
     console := fun _ out =>
       match out with
       | Alert title _ _ _ _ =>
           if PyStr.contains title (PyStr.lit "[/") then Some MarkupError
           else None
       | Summary _ _ _ _ => None
       end |}.

(** [time.sleep(secs)] for an [int], once the sleep is over: a number of
    seconds that does not fit the clock's 64-bit count of nanoseconds is an
    [OverflowError], a negative one a [ValueError]. *)
Definition time_sleep (secs : Z) : option exn :=
  if (secs <? -9223372036) || (9223372036 <? secs) then Some OverflowError
  else if secs <? 0 then Some ValueError
  else None.

(** The configuration when no environment variable is set. *)
Definition default_config : config :=
  {| REFRESH_INTERVAL := 180;
     SHOW_EVERY_CYCLE_SUMMARY := true;
     HF_ENABLE := true;
     HF_API_KEY := [];
     HF_SCORE_THRESHOLD := 0.5%float;
     HF_MAX_PER_CYCLE := 20;
     SEEN_CAPACITY := 1000 |}.

(** The default configuration with an API key and a score threshold. *)
Definition keyed_config (key : str) (threshold : PrimFloat.float) : config :=
  {| REFRESH_INTERVAL := 180;
     SHOW_EVERY_CYCLE_SUMMARY := true;
     HF_ENABLE := true;
     HF_API_KEY := key;
     HF_SCORE_THRESHOLD := threshold;
     HF_MAX_PER_CYCLE := 20;
     SEEN_CAPACITY := 1000 |}.

(** ** Utilities *)

Section Utilities.
Context `{Builtins}.

Definition normalize_text (s : str) : str := lower (PyStr.strip s).

Definition city_aliases (city : str) : list str :=
  let c := normalize_text city in
  default [c] (CITY_SYNONYMS !! c).

Definition title_matches_city (title city : str) : bool :=
  let t := normalize_text title in
  existsb (fun alias => PyStr.contains t alias) (city_aliases city).

Definition keyword_prefilter (title : str) (keywords : list str) : bool :=
  let t := normalize_text title in
  existsb (fun k => PyStr.contains t k) keywords.

(** The body of the [try] of [hf_classify], given the service's reply. *)
Definition hf_request (r : reply) : result (value * PrimFloat.float) :=
  data ← match r with
          | PostRaises => Raise RequestException
          | JsonRaises => Raise JSONDecodeError
          | Body data => Ok data
          end;
  has_labels ← Py.contains data (PyStr.lit "labels");
  has_both ← (if has_labels : bool then Py.contains data (PyStr.lit "scores")
               else Ok false);
  if has_both : bool then
    labels ← Py.getitem data (PyStr.lit "labels");
    label ← Py.getitem0 labels;
    scores ← Py.getitem data (PyStr.lit "scores");
    score0 ← Py.getitem0 scores;
    score ← Py.float score0;
    mret (label, score)
  else mret (VNone, 0%float).

Definition hf_classify (cfg : config) (r : reply) (text : str)
  : value * PrimFloat.float :=
  if negb (HF_ENABLE cfg) || negb (PyStr.nonempty (HF_API_KEY cfg))
  then (VNone, 0%float)
  else try_except (hf_request r) (fun _ => (VNone, 0%float)).

(** A response with well-formed label and score lists, in the words of the
    specification: an object whose ["labels"] is a list that starts with a
    string and whose ["scores"] is a list that starts with a number. *)
Definition well_formed (data : value) : bool :=
  match data with
  | VDict kv =>
      match Py.dict_get kv (PyStr.lit "labels"),
            Py.dict_get kv (PyStr.lit "scores") with
      | Some (VList (VStr _ :: _)), Some (VList ((VFloat _ | VInt _) :: _)) => true
      | _, _ => false
      end
  | _ => false
  end.

(** A value with a first element: a list or a string that is not empty. *)
Definition has_first (v : value) : bool :=
  match v with
  | VList (_ :: _) | VStr (_ :: _) => true
  | _ => false
  end.

(** A value [float] accepts. *)
Definition float_accepts (v : value) : bool :=
  match v with
  | VFloat _ | VBool _ => true
  | VInt n => bool_decide (is_Some (Py.float_of_int n))
  | VStr s => bool_decide (is_Some (float_of_str s))
  | _ => false
  end.

(** A response [hf_classify] can read a label and a score from: an object
    with a ["labels"] and a ["scores"] entry that both have a first element,
    the first element of ["scores"] being one that [float] accepts. *)
Definition readable (data : value) : bool :=
  match data with
  | VDict kv =>
      match Py.dict_get kv (PyStr.lit "labels"),
            Py.dict_get kv (PyStr.lit "scores") with
      | Some labels, Some scores =>
          has_first labels &&
          match scores with
          | VList (x :: _) => float_accepts x
          | VStr (c :: _) => float_accepts (VStr [c])
          | _ => false
          end
      | _, _ => false
      end
  | _ => false
  end.

Definition fetch_rss (f : feed) : list (str * str) :=
  try_except
    (entries ← match f with ParseRaises => Raise RequestException
                | Parsed entries => Ok entries end;
     mapM (fun e : entry =>
             match e_title e, e_link e with
             | Some t, Some l => Ok (t, l)
             | _, _ => Raise AttributeError
             end) entries)
    (fun _ => []).

End Utilities.

(** ** The city endpoint *)

Inductive http_method : Set := GET | POST.

(** [api_city]: the dictionary handed to [jsonify] and the value of
    [USER_CITY] afterwards, given the method of the request, its decoded body
    [request.json] and the current [USER_CITY]. The posted city is whatever
    value the body holds under ["city"]. *)
Definition api_city (method : http_method) (data city : value)
  : result (value * value) :=
  match method with
  | POST =>
      has_city ← Py.contains data (PyStr.lit "city");
      if has_city : bool then
        c ← Py.getitem data (PyStr.lit "city");
        mret (VDict [ (PyStr.lit "status", VStr (PyStr.lit "success"));
                      (PyStr.lit "city", c) ], c)
      else
        mret (VDict [ (PyStr.lit "status", VStr (PyStr.lit "error"));
                      (PyStr.lit "message",
                       VStr (PyStr.lit "City not provided")) ], city)
  | GET => mret (VDict [ (PyStr.lit "city", city) ], city)
  end.

(** ** News items and the state of the worker *)

(** The dictionary built for one classified item. *)
Module NewsItem.
Record t := {
  title : str;
  link : str;
  category : value;
  score : PrimFloat.float;
  time : str;
  is_important : bool
}.
End NewsItem.

(** The variables [update_news] reads and writes: the module's globals, the
    function's locals, and what the loop has asked of the outside world.
    [USER_CITY] holds whatever value [api_city] stored. *)
Record state := {
  USER_CITY : value;
  latest_news : list NewsItem.t;
  important_news : list NewsItem.t;
  dedup : BoundedDedup.t;
  cycle : Z;
  cycle_news : list NewsItem.t;
  cycle_important : list NewsItem.t;
  hf_budget : Z;
  (** the texts [hf_classify] was called with, oldest first *)
  hf_calls : list str;
  (** the number of [now_str] calls made *)
  ticks : nat
}.

(** What happens to the process: the worker runs one iteration of its loop
    on what the feed returns, or a request reaches [/city]. A request is
    taken to arrive between two iterations. *)
Inductive event : Type :=
| Cycle (f : feed)
| Request (method : http_method) (data : value).

(** The string [normalize_text] works on when it is given [USER_CITY], its
    [(s or "")]: taking [.strip()] of a truthy value that is not a string
    is an [AttributeError]. *)
Definition city_text (city : value) : result str :=
  match city with
  | VStr s => Ok s
  | _ => if Py.truthy city then Raise AttributeError else Ok []
  end.

Section Worker.
Context `{Builtins} `{World}.
Variable cfg : config.

(** The label and score of lines 216 to 223, with the budget and the
    calls of [hf_classify] after them, for a city that is a string. *)
Definition classify (city : str) (budget : Z) (calls : list str) (title : str)
  : value * PrimFloat.float * Z * list str :=
  let is_city := title_matches_city title city in
  let is_keyword := keyword_prefilter title IMPORTANT_KEYWORDS in
  if is_city then (VStr (PyStr.lit "city-priority"), 1%float, budget, calls)
  else if is_keyword then (VStr (PyStr.lit "keyword"), 0.75%float, budget, calls)
  else if HF_ENABLE cfg && PyStr.nonempty (HF_API_KEY cfg) && (0 <? budget) then
    let '(label, score) := hf_classify cfg (remote (length calls) title) title in
    (label, score, budget - 1, calls ++ [title])
  else (VNone, 0%float, budget, calls).

(** The dictionary of lines 224 to 231. *)
Definition news_item (title link : str) (label : value)
    (score : PrimFloat.float) (is_keyword : bool) (time : str) : NewsItem.t :=
  {| NewsItem.title := title;
     NewsItem.link := link;
     NewsItem.category :=
       if Py.truthy label then label else VStr (PyStr.lit "general");
     NewsItem.score := score;
     NewsItem.time := time;
     NewsItem.is_important :=
       Py.eq_str label (PyStr.lit "city-priority")
       || (HF_SCORE_THRESHOLD cfg <=? score)%float
       || (is_keyword && (0 <=? score)%float) |}.

(** The state once [dedup.seen] has returned. *)
Definition with_dedup (st : state) (d : BoundedDedup.t) : state :=
  {| USER_CITY := USER_CITY st; latest_news := latest_news st;
     important_news := important_news st; dedup := d;
     cycle := cycle st; cycle_news := cycle_news st;
     cycle_important := cycle_important st;
     hf_budget := hf_budget st; hf_calls := hf_calls st;
     ticks := ticks st |}.

(** The state once lines 232 to 234 have appended the item; the clock was
    read once for the item and is read once more for the panel of an
    important item. *)
Definition with_item (st : state) (d : BoundedDedup.t) (item : NewsItem.t)
    (budget : Z) (calls : list str) : state :=
  {| USER_CITY := USER_CITY st; latest_news := latest_news st;
     important_news := important_news st; dedup := d;
     cycle := cycle st;
     cycle_news := cycle_news st ++ [item];
     cycle_important :=
       if NewsItem.is_important item then cycle_important st ++ [item]
       else cycle_important st;
     hf_budget := budget; hf_calls := calls;
     ticks := if NewsItem.is_important item then S (S (ticks st))
              else S (ticks st) |}.

(** The body of [for news in items]: the state it leaves and the
    exception it raises, if any. Nothing in it is caught: an exception of
    [title_matches_city], [sound_notify] or [console.print] ends the
    worker. *)
Definition process_item (st : state) (news : str * str) : state * option exn :=
  let '(title, link) := news in
  if negb (PyStr.nonempty title) then (st, None)
  else
    match BoundedDedup.seen (dedup st) title with
    | Raise e => (st, Some e)
    | Ok (dup, d) =>
        if dup : bool then (with_dedup st d, None)
        else
          match city_text (USER_CITY st) with
          | Raise e => (with_dedup st d, Some e)
          | Ok city =>
              let is_keyword := keyword_prefilter title IMPORTANT_KEYWORDS in
              let '(label, score, budget, calls) :=
                classify city (hf_budget st) (hf_calls st) title in
              let item := news_item title link label score is_keyword
                            (now_str (ticks st)) in
              (with_item st d item budget calls,
               if NewsItem.is_important item then
                 console (S (ticks st))
                   (Alert title link label score (now_str (S (ticks st))))
               else None)
          end
    end.

(** The loop over the items, left at the first exception. *)
Fixpoint process_items (st : state) (items : list (str * str))
  : state * option exn :=
  match items with
  | [] => (st, None)
  | news :: items' =>
      match process_item st news with
      | (st', None) => process_items st' items'
      | (st', Some e) => (st', Some e)
      end
  end.

(** The state when an iteration starts on its items. *)
Definition cycle_start (st : state) : state :=
  {| USER_CITY := USER_CITY st; latest_news := latest_news st;
     important_news := important_news st; dedup := dedup st;
     cycle := cycle st + 1; cycle_news := []; cycle_important := [];
     hf_budget := HF_MAX_PER_CYCLE cfg; hf_calls := hf_calls st;
     ticks := ticks st |}.

(** The state once lines 242 and 243 have published the lists of the
    cycle. *)
Definition publish (st : state) : state :=
  {| USER_CITY := USER_CITY st; latest_news := cycle_news st;
     important_news := cycle_important st; dedup := dedup st;
     cycle := cycle st; cycle_news := cycle_news st;
     cycle_important := cycle_important st;
     hf_budget := hf_budget st; hf_calls := hf_calls st;
     ticks := ticks st |}.

(** The state once the clock has been read for the summary. *)
Definition tick (st : state) : state :=
  {| USER_CITY := USER_CITY st; latest_news := latest_news st;
     important_news := important_news st; dedup := dedup st;
     cycle := cycle st; cycle_news := cycle_news st;
     cycle_important := cycle_important st;
     hf_budget := hf_budget st; hf_calls := hf_calls st;
     ticks := S (ticks st) |}.

(** One iteration of [while running]: the state it leaves and the
    exception it raises, if any. *)
Definition update_news_cycle (st : state) (f : feed) : state * option exn :=
  match fetch_rss f with
  | [] =>
      ({| USER_CITY := USER_CITY st; latest_news := latest_news st;
          important_news := important_news st; dedup := dedup st;
          cycle := cycle st + 1; cycle_news := cycle_news st;
          cycle_important := cycle_important st;
          hf_budget := hf_budget st; hf_calls := hf_calls st;
          ticks := ticks st |},
       time_sleep (REFRESH_INTERVAL cfg))
  | news :: items' =>
      match process_items (cycle_start st) (news :: items') with
      | (st', Some e) => (st', Some e)
      | (st', None) =>
          if SHOW_EVERY_CYCLE_SUMMARY cfg then
            match console (ticks st')
                    (Summary (now_str (ticks st')) (cycle st')
                       (length (cycle_important st'))
                       (length (news :: items'))) with
            | Some e => (tick (publish st'), Some e)
            | None => (tick (publish st'), time_sleep (REFRESH_INTERVAL cfg))
            end
          else (publish st', time_sleep (REFRESH_INTERVAL cfg))
      end
  end.

(** A request to [/city]: [USER_CITY] after [api_city]; when [api_city]
    raises, the request fails and [USER_CITY] stays. *)
Definition city_request (st : state) (method : http_method) (data : value)
  : state :=
  match api_city method data (USER_CITY st) with
  | Ok (_, city) =>
      {| USER_CITY := city; latest_news := latest_news st;
         important_news := important_news st; dedup := dedup st;
         cycle := cycle st; cycle_news := cycle_news st;
         cycle_important := cycle_important st;
         hf_budget := hf_budget st; hf_calls := hf_calls st;
         ticks := ticks st |}
  | Raise _ => st
  end.

(** The process over a sequence of events, followed until the worker
    raises: the state then, and the exception. *)
Fixpoint run (st : state) (evs : list event) : state * option exn :=
  match evs with
  | [] => (st, None)
  | Cycle f :: evs' =>
      match update_news_cycle st f with
      | (st', None) => run st' evs'
      | (st', Some e) => (st', Some e)
      end
  | Request method data :: evs' => run (city_request st method data) evs'
  end.

(** The state [update_news] starts from, once the deduplicator is built. *)
Definition initial (city : value) (d : BoundedDedup.t) : state :=
  {| USER_CITY := city; latest_news := []; important_news := [];
     dedup := d; cycle := 0; cycle_news := []; cycle_important := [];
     hf_budget := 0; hf_calls := []; ticks := 0 |}.

(** [update_news], observed over the events [evs]: the exception of the
    constructor of the deduplicator, or else the state the worker leaves and
    the exception that ended it, if any. *)
Definition update_news (city : value) (evs : list event)
  : result (state * option exn) :=
  d ← BoundedDedup.init (SEEN_CAPACITY cfg);
  mret (run (initial city d) evs).

End Worker.

(** A state for examples: the worker as it starts, for the city Delhi and
    with an empty deduplicator of capacity 1000. *)
Definition start_state : state :=
  initial (VStr (PyStr.lit "Delhi")) (BoundedDedup.empty 1000).

(** A state for examples: the first cycle of that worker when it starts
    on its items, with a budget of 20 calls. *)
Definition first_cycle_state : state :=
  {| USER_CITY := VStr (PyStr.lit "Delhi");
     latest_news := []; important_news := [];
     dedup := BoundedDedup.empty 1000; cycle := 1;
     cycle_news := []; cycle_important := [];
     hf_budget := 20; hf_calls := []; ticks := 0 |}.

(** The same state with one call left in the budget. *)
Definition last_call_state : state :=
  {| USER_CITY := VStr (PyStr.lit "Delhi");
     latest_news := []; important_news := [];
     dedup := BoundedDedup.empty 1000; cycle := 1;
     cycle_news := []; cycle_important := [];
     hf_budget := 1; hf_calls := []; ticks := 0 |}.

(** A feed for examples. *)
Definition two_item_feed : feed :=
  Parsed [ {| e_title := Some (PyStr.lit "Fire in Delhi market");
              e_link := Some (PyStr.lit "https://example.org/1") |};
           {| e_title := Some (PyStr.lit "Council approves budget");
              e_link := Some (PyStr.lit "https://example.org/3") |} ].

(** A state for examples: the worker after a first cycle on that feed, in
    a world without classification service. *)
Definition published_state : state :=
  (@update_news_cycle ascii_builtins offline_world default_config
     start_state two_item_feed).1.

(** ** Notions used to state the properties *)

(** The last [n] elements of a list. *)
Definition lastn {A} (n : nat) (l : list A) : list A := drop (length l - n) l.

(** The keys a sequence of [seen] calls records: the stripped keys of the
    calls that answered [False], in call order. *)
Fixpoint recorded (keys : list str) (answers : list bool) : list str :=
  match keys, answers with
  | key :: keys', b :: answers' =>
      (if b then [] else [PyStr.strip key]) ++ recorded keys' answers'
  | _, _ => []
  end.

(** A string of white space only. *)
Definition blank (s : str) : Prop := Forall (fun c => PyStr.isspace c = true) s.

(** An entry of the feed that has both a title and a link. *)
Definition complete (e : entry) : bool :=
  match e_title e, e_link e with
  | Some _, Some _ => true
  | _, _ => false
  end.

(** The feed entry with a given title and link. *)
Definition entry_of (news : str * str) : entry :=
  {| e_title := Some news.1; e_link := Some news.2 |}.

(** The answer of [api_city] to a [POST] without a city. *)
Definition city_not_provided : value :=
  VDict [ (PyStr.lit "status", VStr (PyStr.lit "error"));
          (PyStr.lit "message", VStr (PyStr.lit "City not provided")) ].



(** A call of the classification service that fails: the request raises,
    the body is not JSON, or no label and score can be read from the
    decoded body. *)
Definition failed `{Builtins} (r : reply) : Prop :=
  r = PostRaises \/ r = JsonRaises \/
  exists data, r = Body data /\ readable data = false.

(** * Properties *)

(** ** The classification client *)

Section ClientFacts.
Context `{Builtins}.

Lemma dict_get_None kv s :
  Py.dict_get kv s = None ->
  Py.contains (VDict kv) s = Ok false.
Proof.
  simpl. intros Hg. f_equal. induction kv as [|[k x] kv IH]; [done|].
  simpl in *. destruct (bool_decide (k = s)); [discriminate | auto].
Qed.

Lemma dict_get_Some kv s x :
  Py.dict_get kv s = Some x ->
  Py.contains (VDict kv) s = Ok true.
Proof.
  simpl. intros Hg. f_equal. induction kv as [|[k y] kv IH]; [done|].
  simpl in *. destruct (bool_decide (k = s)); [done | auto].
Qed.

Lemma hf_request_unreadable data :
  readable data = false ->
  hf_request (Body data) = Ok (VNone, 0%float) \/ raises (hf_request (Body data)).
Proof.
  intros Hr. unfold hf_request. cbn [mbind result_bind].
  destruct data as [| | | |t|l|kv]; try (right; by eexists).
  - simpl. destruct (PyStr.contains t _); [|by left].
    destruct (PyStr.contains t _); [right; by eexists | by left].
  - simpl. destruct (existsb _ l); [|by left].
    destruct (existsb _ l); [right; by eexists | by left].
  - unfold readable in Hr.
    destruct (Py.dict_get kv (PyStr.lit "labels")) as [labels|] eqn:Hl.
    2:{ rewrite (dict_get_None _ _ Hl). by left. }
    rewrite (dict_get_Some _ _ _ Hl).
    destruct (Py.dict_get kv (PyStr.lit "scores")) as [scores|] eqn:Hs.
    2:{ rewrite (dict_get_None _ _ Hs). by left. }
    rewrite (dict_get_Some _ _ _ Hs). right.
    unfold Py.getitem. rewrite Hl, Hs. cbn [mbind result_bind].
    destruct labels as [| | | |[|c t]|[|x l]|]; try (by eexists);
      simpl in Hr; cbn [Py.getitem0 mbind result_bind].
    all: destruct scores as [| | | |[|c' t']|[|x' l']|]; try (by eexists);
      cbn [Py.getitem0 mbind result_bind].
    all: unfold Py.float.
    all: try (simpl in Hr; apply bool_decide_eq_false in Hr;
              destruct (float_of_str [c']) eqn:E;
              [destruct Hr; by eexists | by eexists]).
    all: destruct x' as [| |n| |u| |]; try discriminate; try (by eexists).
    all: simpl in Hr; apply bool_decide_eq_false in Hr.
    all: first [ destruct (Py.float_of_int n) eqn:E
               | destruct (float_of_str u) eqn:E ];
         [destruct Hr; by eexists | by eexists].
Qed.

(** C9, amended. [hf_classify] returns a pair and raises nothing. The pair
    is [(None, 0.0)] when the client is disabled, when it has no key, when
    the request raises (no connection, timeout), when the body is not
    JSON, and when the decoded body is not readable: not an object that
    holds ["labels"] and ["scores"] entries with a first element each, the
    first score being one [float] accepts. *)
Theorem hf_classify_fails_open (cfg : config) (r : reply) (text : str) :
  HF_ENABLE cfg = false \/ HF_API_KEY cfg = [] \/
  r = PostRaises \/ r = JsonRaises \/
  (exists data, r = Body data /\ readable data = false) ->
  hf_classify cfg r text = (VNone, 0%float).
Proof.
  unfold hf_classify.
  intros [-> | [-> | Hr]]; [done | by rewrite orb_true_r |].
  destruct (negb _ || negb _); [done|].
  destruct Hr as [-> | [-> | (data & -> & Hd)]]; [done | done |].
  by destruct (hf_request_unreadable data Hd) as [-> | [e ->]].
Qed.

End ClientFacts.

Lemma hf_classify_fails_open_witness :
  PostRaises = PostRaises /\
  @hf_classify ascii_builtins (keyed_config (PyStr.lit "hf_key") 0.5)
     PostRaises (PyStr.lit "Council approves budget") = (VNone, 0%float).
Proof.
  split; [reflexivity|].
  apply (@hf_classify_fails_open ascii_builtins). right; right; left.
  reflexivity.
Defined.

(** C9, as stated, fails: a response whose ["labels"] is the string
    ["abc"], not a list, is read, and the client returns its first character
    with the score instead of [(None, 0.0)]. *)
Lemma hf_classify_string_labels_counterexample :
  let data := VDict [ (PyStr.lit "labels", VStr (PyStr.lit "abc"));
                      (PyStr.lit "scores", VList [VFloat 0.5]) ] in
  well_formed data = false /\
  @hf_classify ascii_builtins (keyed_config (PyStr.lit "hf_key") 0.5)
     (Body data) (PyStr.lit "Council approves budget")
  = (VStr (PyStr.lit "a"), 0.5%float).
Proof. split; vm_compute; reflexivity. Qed.

(** ** The deduplicator *)

Section DedupFacts.
Import BoundedDedup.

Lemma first_stale_Some st q s :
  first_stale st q = Some s -> s ∈ st /\ s ∉ q.
Proof.
  unfold first_stale. intros Hf. apply find_some in Hf as [Hin Hb].
  split.
  - apply elem_of_elements. by apply list_elem_of_In.
  - apply negb_true_iff, bool_decide_eq_false in Hb. exact Hb.
Qed.

Lemma first_stale_None st q :
  first_stale st q = None -> forall x, x ∈ st -> x ∈ q.
Proof.
  unfold first_stale. intros Hf x Hx.
  apply elem_of_elements, list_elem_of_In in Hx.
  pose proof (find_none _ _ Hf x Hx) as Hb. simpl in Hb.
  apply negb_false_iff, bool_decide_eq_true in Hb. exact Hb.
Qed.

(** The loop never raises: the member it removes was just read from the
    set. *)
Lemma shrink_total st q : exists st', shrink st q = Ok st'.
Proof.
  funelim (shrink st q); eauto.
  exfalso. match goal with Hs : first_stale _ _ = Some _ |- _ =>
    apply first_stale_Some in Hs as [? ?] end. contradiction.
Qed.

(** When the queue holds distinct keys that are all in the set, the loop
    leaves exactly the keys of the queue, whatever the order in which the
    set is scanned. *)
Lemma shrink_sync st q :
  NoDup q -> (forall x, x ∈ q -> x ∈ st) ->
  shrink st q = Ok (list_to_set q).
Proof.
  funelim (shrink st q); intros Hnd Hsub.
  - f_equal. symmetry. apply set_subseteq_size_eq.
    + intros x Hx. apply elem_of_list_to_set in Hx. auto.
    + rewrite size_list_to_set by done. lia.
  - f_equal. apply set_eq. intros x. rewrite elem_of_list_to_set.
    split; [by apply first_stale_None | apply Hsub].
  - match goal with IH : NoDup _ -> _ |- _ => apply IH; [done|] end.
    intros x Hx. apply elem_of_difference. split; [auto|].
    rewrite elem_of_singleton. intros ->.
    match goal with Hs : first_stale _ _ = Some _ |- _ =>
      apply first_stale_Some in Hs as [_ Hs]; contradiction end.
  - exfalso. match goal with Hs : first_stale _ _ = Some _ |- _ =>
      apply first_stale_Some in Hs as [? _] end. contradiction.
Qed.

Lemma init_consistent c d : init c = Ok d -> consistent d /\ capacity d = c.
Proof.
  unfold init, Deque.new. destruct (_ || _); [discriminate|].
  destruct (Z.ltb_spec c 0); [discriminate|].
  intros [= <-]. repeat split; simpl; try lia. constructor.
Qed.

Lemma init_empty c : 0 <= c <= PY_SSIZE_T_MAX -> init c = Ok (empty c).
Proof.
  intros Hc. unfold init, Deque.new.
  assert (0 <= PY_SSIZE_T_MAX) by done.
  destruct (Z.ltb_spec c (- PY_SSIZE_T_MAX - 1)); [lia|].
  destruct (Z.ltb_spec PY_SSIZE_T_MAX c); [lia|].
  by destruct (Z.ltb_spec c 0); [lia|].
Qed.

Lemma append_items (q : Deque.deque) (k : str) :
  Deque.items (Deque.append q k) =
    if Deque.maxlen q <? Z.of_nat (length (Deque.items q)) + 1
    then tail (Deque.items q ++ [k]) else Deque.items q ++ [k].
Proof.
  unfold Deque.append. simpl. rewrite length_app. simpl.
  replace (Z.of_nat (length (Deque.items q) + 1)) with
    (Z.of_nat (length (Deque.items q)) + 1) by lia.
  reflexivity.
Qed.

Lemma append_NoDup (q : Deque.deque) (k : str) :
  NoDup (Deque.items q) -> k ∉ Deque.items q ->
  NoDup (Deque.items (Deque.append q k)).
Proof.
  intros Hnd Hk. rewrite append_items.
  assert (NoDup (Deque.items q ++ [k])) as Hall.
  { apply NoDup_app. repeat split; [done | | apply NoDup_singleton].
    intros x Hx ->%list_elem_of_singleton. contradiction. }
  destruct (_ <? _); [|done].
  destruct (Deque.items q ++ [k]) as [|o r]; [done|].
  simpl. by apply NoDup_cons in Hall as [_ ?].
Qed.

Lemma append_subset (q : Deque.deque) (k x : str) :
  x ∈ Deque.items (Deque.append q k) -> x = k \/ x ∈ Deque.items q.
Proof.
  rewrite append_items. intros Hx.
  assert (x ∈ Deque.items q ++ [k]) as Hin.
  { destruct (_ <? _); [|done].
    destruct (Deque.items q ++ [k]) as [|o r]; [done|].
    simpl in Hx. by apply elem_of_cons; right. }
  apply elem_of_app in Hin as [?| ->%list_elem_of_singleton]; auto.
Qed.

(** [seen] on a key that is not recorded: the key is appended to the
    queue and the set becomes the set of the queue's keys. *)
Lemma seen_fresh d key :
  consistent d -> PyStr.strip key ∉ set d ->
  seen d key =
    Ok (false,
        {| capacity := capacity d;
           queue := Deque.append (queue d) (PyStr.strip key);
           set := list_to_set
                    (Deque.items (Deque.append (queue d) (PyStr.strip key))) |}).
Proof.
  intros (Hc & Hm & Hnd & Hlen & Hset) Hk. unfold seen.
  destruct (decide _); [contradiction|].
  rewrite shrink_sync; [reflexivity | |].
  - apply append_NoDup; [done|]. rewrite Hset in Hk.
    by rewrite elem_of_list_to_set in Hk.
  - intros x [-> | Hx]%append_subset;
      [by apply elem_of_union; left; apply elem_of_singleton|].
    apply elem_of_union; right. rewrite Hset.
    by apply elem_of_list_to_set.
Qed.

Lemma seen_known d key :
  PyStr.strip key ∈ set d -> seen d key = Ok (true, d).
Proof. intros Hk. unfold seen. by destruct (decide _). Qed.

Lemma seen_consistent d key b d' :
  consistent d -> seen d key = Ok (b, d') ->
  consistent d' /\ capacity d' = capacity d.
Proof.
  intros Hd Hs. destruct (decide (PyStr.strip key ∈ set d)) as [Hk|Hk].
  - rewrite seen_known in Hs by done. by injection Hs as <- <-.
  - rewrite seen_fresh in Hs by done. injection Hs as <- <-.
    destruct Hd as (Hc & Hm & Hnd & Hlen & Hset). split; [|done].
    unfold consistent; cbn [capacity queue set]. repeat split; try done.
    + apply append_NoDup; [done|]. rewrite Hset in Hk.
      by rewrite elem_of_list_to_set in Hk.
    + rewrite append_items, Hm.
      destruct (Z.ltb_spec (capacity d)
                  (Z.of_nat (length (Deque.items (queue d))) + 1)).
      * destruct (Deque.items (queue d)) as [|o r]; simpl in *; [lia|].
        rewrite length_app; simpl. lia.
      * rewrite length_app; simpl. lia.
Qed.

Lemma seen_all_consistent keys : forall d bs d',
  consistent d -> seen_all d keys = Ok (bs, d') ->
  consistent d' /\ capacity d' = capacity d.
Proof.
  induction keys as [|key keys IH]; simpl; intros d bs d' Hd Hs.
  - by injection Hs as <- <-.
  - destruct (seen d key) as [[b d1]|] eqn:H1; [|discriminate]. simpl in Hs.
    destruct (seen_all d1 keys) as [[bs1 d2]|] eqn:H2; [|discriminate].
    simpl in Hs. injection Hs as <- <-.
    destruct (seen_consistent _ _ _ _ Hd H1) as [Hd1 Hc1].
    destruct (IH _ _ _ Hd1 H2) as [Hd2 Hc2]. split; [done | congruence].
Qed.

(** [seen] never raises, in whatever state the object is. *)
Lemma seen_total d key : exists b d', seen d key = Ok (b, d').
Proof.
  unfold seen. destruct (decide _); [eauto|].
  destruct (shrink_total ({[PyStr.strip key]} ∪ set d)
              (Deque.items (Deque.append (queue d) (PyStr.strip key))))
    as [st' ->].
  simpl. eauto.
Qed.

Lemma seen_all_total keys : forall d, exists bs d', seen_all d keys = Ok (bs, d').
Proof.
  induction keys as [|key keys IH]; simpl; intros d; [eauto|].
  destruct (seen_total d key) as (b & d1 & ->). simpl.
  destruct (IH d1) as (bs & d2 & ->). simpl. eauto.
Qed.

Lemma seen_capacity_0 d key :
  consistent d -> capacity d = 0 -> seen d key = Ok (false, d).
Proof.
  intros Hd Hc. pose proof Hd as (_ & Hm & _ & Hlen & Hset).
  destruct d as [c [m q] st]. simpl in *. subst c.
  destruct q as [|x q]; [|simpl in Hlen; lia]. simpl in Hset. subst st m.
  rewrite seen_fresh by (done || apply not_elem_of_empty).
  reflexivity.
Qed.

Lemma seen_capacity_1 d key prev :
  consistent d -> capacity d = 1 ->
  Deque.items (queue d) = option_list prev ->
  exists d', seen d key = Ok (bool_decide (prev = Some (PyStr.strip key)), d') /\
    consistent d' /\ capacity d' = 1 /\
    Deque.items (queue d') = [PyStr.strip key].
Proof.
  intros Hd Hc Hq. pose proof Hd as (_ & Hm & _ & _ & Hset).
  rewrite Hq in Hset.
  destruct (decide (prev = Some (PyStr.strip key))) as [->|Hne].
  - exists d. rewrite bool_decide_eq_true_2 by done.
    split; [|done]. apply seen_known. rewrite Hset. simpl.
    apply elem_of_union; left. by apply elem_of_singleton.
  - rewrite bool_decide_eq_false_2 by done.
    assert (PyStr.strip key ∉ set d) as Hk.
    { rewrite Hset. destruct prev as [p|]; simpl.
      - rewrite elem_of_union, elem_of_singleton.
        intros [Heq|[]%not_elem_of_empty]. apply Hne. by rewrite Heq.
      - apply not_elem_of_empty. }
    eexists. split; [by apply seen_fresh|].
    destruct (seen_consistent d key _ _ Hd (seen_fresh d key Hd Hk)) as [Hd' Hc'].
    split; [done|]. split; [simpl in *; congruence|].
    cbn [queue]. rewrite append_items, Hm, Hc, Hq.
    by destruct prev.
Qed.

Lemma seen_all_capacity_1 keys : forall d prev,
  consistent d -> capacity d = 1 ->
  Deque.items (queue d) = option_list prev ->
  exists d', seen_all d keys = Ok (remembers_latest prev keys, d') /\
    consistent d' /\
    Deque.items (queue d') =
      match last keys with
      | Some key => [PyStr.strip key]
      | None => option_list prev
      end.
Proof.
  induction keys as [|key keys IH]; intros d prev Hd Hc Hq.
  - exists d. by simpl.
  - destruct (seen_capacity_1 d key prev Hd Hc Hq) as (d1 & Hs & Hd1 & Hc1 & Hq1).
    destruct (IH d1 (Some (PyStr.strip key)) Hd1 Hc1 Hq1) as (d2 & Hr & Hd2 & Hq2).
    exists d2. simpl. rewrite Hs. simpl. rewrite Hr. simpl.
    split; [done|]. split; [done|]. rewrite Hq2.
    destruct keys as [|key' keys']; [done|].
    change (last (key :: key' :: keys')) with (last (key' :: keys')).
    destruct (last (key' :: keys')) eqn:E; [done|].
    by apply last_None in E.
Qed.

(** C1. For every capacity [c >= 0] that the constructor accepts, up to
    the largest [Py_ssize_t], and every sequence of [seen] calls on a
    deduplicator of capacity [c], the calls return and leave a state in
    which the set and the queue hold exactly the same keys, as many in the
    one as in the other and at most [c]. From such a state a call with a new
    key appends it when the store is not full, and otherwise evicts the
    oldest key, the head of the queue, from queue and set. *)
Theorem dedup_same_keys_bounded_fifo (c : Z) (keys : list str) :
  0 <= c <= PY_SSIZE_T_MAX ->
  exists d0 bs d,
    init c = Ok d0 /\ seen_all d0 keys = Ok (bs, d) /\
    (forall k, k ∈ set d <-> k ∈ Deque.items (queue d)) /\
    size (set d) = Deque.len (queue d) /\
    Z.of_nat (size (set d)) <= c /\
    forall key, PyStr.strip key ∉ set d ->
      exists d', seen d key = Ok (false, d') /\
        (Z.of_nat (Deque.len (queue d)) < c ->
           Deque.items (queue d') = Deque.items (queue d) ++ [PyStr.strip key]) /\
        (forall o rest,
           Deque.items (queue d) = o :: rest ->
           Z.of_nat (Deque.len (queue d)) = c ->
           Deque.items (queue d') = rest ++ [PyStr.strip key] /\
           (o ∉ set d') /\ (PyStr.strip key ∈ set d') /\
           forall x, x ∈ rest -> x ∈ set d').
Proof.
  intros Hc. pose proof (init_empty c Hc) as Hinit.
  destruct (init_consistent _ _ Hinit) as [Hd0 Hc0].
  destruct (seen_all_total keys (empty c)) as (bs & d & Hrun).
  destruct (seen_all_consistent _ _ _ _ Hd0 Hrun) as [Hd Hcap].
  exists (empty c), bs, d. split; [done|]. split; [done|].
  pose proof Hd as (_ & Hm & Hnd & Hlen & Hset).
  assert (size (set d) = Deque.len (queue d)) as Hsize.
  { rewrite Hset. by apply size_list_to_set. }
  rewrite Hcap in Hlen, Hm. cbn [capacity empty] in Hlen, Hm.
  split; [|split; [done|split]].
  - intros k. rewrite Hset. apply elem_of_list_to_set.
  - rewrite Hsize. unfold Deque.len. lia.
  - intros key Hk. eexists. split; [by apply seen_fresh|].
    cbn [queue set]. rewrite append_items, Hm. unfold Deque.len. split.
    + intros Hlt. destruct (Z.ltb_spec c
        (Z.of_nat (length (Deque.items (queue d))) + 1)); [lia|done].
    + intros o rest Hq Hfull.
      destruct (Z.ltb_spec c
        (Z.of_nat (length (Deque.items (queue d))) + 1)); [|lia].
      rewrite Hq. simpl. split; [done|].
      rewrite Hq in Hnd. apply NoDup_cons in Hnd as [Ho _].
      rewrite Hset, Hq in Hk.
      rewrite elem_of_list_to_set in Hk.
      repeat split.
      * rewrite elem_of_list_to_set, elem_of_app, list_elem_of_singleton.
        intros [?| ->]; [contradiction|]. apply Hk. by left.
      * rewrite elem_of_list_to_set, elem_of_app, list_elem_of_singleton.
        by right.
      * intros x Hx.
        rewrite elem_of_list_to_set, elem_of_app. by left.
Qed.

Lemma dedup_same_keys_bounded_fifo_witness :
  0 <= 2 <= PY_SSIZE_T_MAX /\
  exists d0 bs d,
    init 2 = Ok d0 /\
    seen_all d0 [PyStr.lit "a"; PyStr.lit "b"; PyStr.lit "c"] = Ok (bs, d) /\
    Z.of_nat (size (set d)) <= 2.
Proof.
  split; [by vm_compute|].
  destruct (dedup_same_keys_bounded_fifo 2
              [PyStr.lit "a"; PyStr.lit "b"; PyStr.lit "c"])
    as (d0 & bs & d & Hi & Hr & _ & _ & Hle & _); [by vm_compute|].
  exists d0, bs, d. auto.
Defined.

(** C2. On a fresh deduplicator of capacity 2 the calls [seen("a")],
    [seen("b")], [seen("c")], [seen("a")] return false, false, false,
    false; on one of capacity 3 they return false, false, false, true. *)
Theorem dedup_abca_capacity_2_and_3 :
  let keys := [PyStr.lit "a"; PyStr.lit "b"; PyStr.lit "c"; PyStr.lit "a"] in
  (d ← init 2; '(bs, _) ← seen_all d keys; mret bs)
    = Ok [false; false; false; false] /\
  (d ← init 3; '(bs, _) ← seen_all d keys; mret bs)
    = Ok [false; false; false; true].
Proof. split; vm_compute; reflexivity. Qed.

(** C8. A deduplicator of capacity 0 or 1 never raises, whatever the
    sequence of [seen] calls. At capacity 0 every call returns false and
    nothing is stored. At capacity 1 a call returns true exactly when its
    key is the key of the call before it, and what is stored afterwards is
    the key of the last call alone. *)
Theorem dedup_capacity_0_and_1 (keys : list str) :
  (exists d0 d,
     init 0 = Ok d0 /\
     seen_all d0 keys = Ok (map (fun _ => false) keys, d) /\
     Deque.items (queue d) = [] /\ set d = ∅) /\
  (exists d0 d,
     init 1 = Ok d0 /\
     seen_all d0 keys = Ok (remembers_latest None keys, d) /\
     Deque.items (queue d) =
       match last keys with Some key => [PyStr.strip key] | None => [] end /\
     set d = list_to_set (Deque.items (queue d))).
Proof.
  split.
  - destruct (init 0) as [d0|] eqn:Hinit; [|discriminate].
    destruct (init_consistent _ _ Hinit) as [Hd0 Hc0].
    exists d0, d0. split; [done|]. split.
    + induction keys as [|key keys IH]; [done|].
      simpl. rewrite seen_capacity_0 by done. simpl. by rewrite IH.
    + by injection Hinit as <-.
  - destruct (init 1) as [d0|] eqn:Hinit; [|discriminate].
    destruct (init_consistent _ _ Hinit) as [Hd0 Hc0].
    destruct (seen_all_capacity_1 keys d0 None Hd0 Hc0) as (d & Hr & Hd & Hq).
    { by injection Hinit as <-. }
    exists d0, d. split; [done|]. split; [done|]. split; [done|].
    by destruct Hd as (_ & _ & _ & _ & ?).
Qed.

End DedupFacts.

(** ** The worker *)

Lemma seen_new d key :
  PyStr.strip key ∉ BoundedDedup.set d ->
  exists d', BoundedDedup.seen d key = Ok (false, d').
Proof.
  intros Hk. unfold BoundedDedup.seen. destruct (decide _); [contradiction|].
  destruct (shrink_total ({[PyStr.strip key]} ∪ BoundedDedup.set d)
              (Deque.items (Deque.append (BoundedDedup.queue d) (PyStr.strip key))))
    as [st' ->].
  simpl. eauto.
Qed.

Lemma label_city_priority :
  Py.truthy (VStr (PyStr.lit "city-priority")) = true /\
  Py.eq_str (VStr (PyStr.lit "city-priority")) (PyStr.lit "city-priority") = true /\
  VStr (PyStr.lit "city-priority") <> VStr (PyStr.lit "keyword").
Proof. repeat split; by vm_compute. Qed.

Lemma label_keyword :
  Py.truthy (VStr (PyStr.lit "keyword")) = true /\
  Py.eq_str (VStr (PyStr.lit "keyword")) (PyStr.lit "city-priority") = false.
Proof. split; by vm_compute. Qed.

(** A threshold above 0.0 is not reached by the score 0.0. *)
Lemma positive_threshold_not_reached (thr : PrimFloat.float) :
  (0 <? thr)%float = true -> (thr <=? 0)%float = false.
Proof.
  rewrite FloatAxioms.ltb_spec, FloatAxioms.leb_spec.
  change (Prim2SF 0) with (S754_zero false).
  destruct (Prim2SF thr) as [[]|[]| |[] m e]; try discriminate; reflexivity.
Qed.

Section WorkerFacts.
Context `{Builtins} `{World}.
Variable cfg : config.

Lemma hf_classify_failed (r : reply) (text : str) :
  failed r -> hf_classify cfg r text = (VNone, 0%float).
Proof.
  unfold hf_classify. destruct (negb _ || negb _); [done|].
  intros [-> | [-> | (data & -> & Hd)]]; [done | done |].
  by destruct (hf_request_unreadable data Hd) as [-> | [e ->]].
Qed.

(** The three ways through the body of the loop: the item is skipped, the
    city cannot be normalized, or the title is classified and its item
    appended, with an alert when it is important. *)
Lemma process_item_cases (st : state) (title link : str) :
  ((title = [] \/ PyStr.strip title ∈ BoundedDedup.set (dedup st)) /\
   process_item cfg st (title, link) = (st, None)) \/
  (title <> [] /\ (PyStr.strip title ∉ BoundedDedup.set (dedup st)) /\
   exists d',
     BoundedDedup.seen (dedup st) title = Ok (false, d') /\
     ((exists e,
         city_text (USER_CITY st) = Raise e /\
         process_item cfg st (title, link) = (with_dedup st d', Some e)) \/
      (exists city label score budget calls,
         city_text (USER_CITY st) = Ok city /\
         classify cfg city (hf_budget st) (hf_calls st) title
           = (label, score, budget, calls) /\
         process_item cfg st (title, link) =
           (with_item st d'
              (news_item cfg title link label score
                 (keyword_prefilter title IMPORTANT_KEYWORDS)
                 (now_str (ticks st)))
              budget calls,
            if NewsItem.is_important
                 (news_item cfg title link label score
                    (keyword_prefilter title IMPORTANT_KEYWORDS)
                    (now_str (ticks st)))
            then console (S (ticks st))
                   (Alert title link label score (now_str (S (ticks st))))
            else None)))).
Proof.
  destruct title as [|c title]; [left; split; [by left | done]|].
  destruct (decide (PyStr.strip (c :: title) ∈ BoundedDedup.set (dedup st)))
    as [Hk|Hk].
  - left. split; [by right|]. unfold process_item. cbn [PyStr.nonempty negb].
    rewrite seen_known by done. unfold with_dedup. by destruct st.
  - right. split; [done|]. split; [done|].
    destruct (seen_new _ _ Hk) as [d' Hd']. exists d'. split; [done|].
    unfold process_item. cbn [PyStr.nonempty negb]. rewrite Hd'.
    destruct (city_text (USER_CITY st)) as [city|e]; [right | left; by exists e].
    destruct (classify cfg city (hf_budget st) (hf_calls st) (c :: title))
      as [[[label score] budget] calls] eqn:Hcl.
    by exists city, label, score, budget, calls.
Qed.

(** A title that is not empty and not recorded, with a city that can be
    normalized, yields the item of its label and score. *)
Lemma process_item_fresh (st : state) (title link city : str)
    (label : value) (score : PrimFloat.float) (budget : Z) (calls : list str) :
  PyStr.nonempty title = true ->
  PyStr.strip title ∉ BoundedDedup.set (dedup st) ->
  city_text (USER_CITY st) = Ok city ->
  classify cfg city (hf_budget st) (hf_calls st) title
    = (label, score, budget, calls) ->
  exists d',
    process_item cfg st (title, link) =
      (with_item st d'
         (news_item cfg title link label score
            (keyword_prefilter title IMPORTANT_KEYWORDS) (now_str (ticks st)))
         budget calls,
       if NewsItem.is_important
            (news_item cfg title link label score
               (keyword_prefilter title IMPORTANT_KEYWORDS)
               (now_str (ticks st)))
       then console (S (ticks st))
              (Alert title link label score (now_str (S (ticks st))))
       else None).
Proof.
  intros Hne Hk Hcity Hcl. unfold process_item. rewrite Hne. cbn [negb].
  destruct (seen_new _ _ Hk) as [d' ->]. exists d'.
  by rewrite Hcity, Hcl.
Qed.

(** C3. A new title whose normalized form contains an alias of the
    configured city and an alarm keyword is classified by the city rule
    alone: its item, appended to the items of the cycle, has category
    "city-priority" and score 1.0, not category "keyword", and is important;
    the remote client is not called nor the budget spent. The only thing
    that can raise is the alert of the item. *)
Theorem city_rule_takes_precedence (st : state) (title link city : str) :
  PyStr.nonempty title = true ->
  PyStr.strip title ∉ BoundedDedup.set (dedup st) ->
  city_text (USER_CITY st) = Ok city ->
  title_matches_city title city = true ->
  keyword_prefilter title IMPORTANT_KEYWORDS = true ->
  exists st' item,
    process_item cfg st (title, link)
      = (st', console (S (ticks st))
                (Alert title link (VStr (PyStr.lit "city-priority")) 1
                   (now_str (S (ticks st))))) /\
    cycle_news st' = cycle_news st ++ [item] /\
    cycle_important st' = cycle_important st ++ [item] /\
    NewsItem.title item = title /\
    NewsItem.category item = VStr (PyStr.lit "city-priority") /\
    NewsItem.category item <> VStr (PyStr.lit "keyword") /\
    NewsItem.score item = 1%float /\
    NewsItem.is_important item = true /\
    hf_calls st' = hf_calls st /\ hf_budget st' = hf_budget st.
Proof.
  intros Hne Hk Hc Hcity Hkw.
  destruct (process_item_fresh st title link city
              (VStr (PyStr.lit "city-priority")) 1%float
              (hf_budget st) (hf_calls st) Hne Hk Hc) as [d' ->].
  { unfold classify. by rewrite Hcity. }
  destruct label_city_priority as (Ht & He & Hd).
  unfold with_item, news_item. rewrite Ht, He.
  cbn [orb NewsItem.is_important].
  eexists _, _. split; [reflexivity|]. cbn. by repeat split.
Qed.

(** C4. A new title that no city alias matches and a keyword does gets an
    item of category "keyword" and score 0.75 that is important, whatever
    the configured threshold is; it is appended to the items and to the
    important items of the cycle. The only thing that can raise is the
    alert of the item. *)
Theorem keyword_rule_forces_importance (st : state) (title link city : str) :
  PyStr.nonempty title = true ->
  PyStr.strip title ∉ BoundedDedup.set (dedup st) ->
  city_text (USER_CITY st) = Ok city ->
  title_matches_city title city = false ->
  keyword_prefilter title IMPORTANT_KEYWORDS = true ->
  exists st' item,
    process_item cfg st (title, link)
      = (st', console (S (ticks st))
                (Alert title link (VStr (PyStr.lit "keyword")) 0.75
                   (now_str (S (ticks st))))) /\
    cycle_news st' = cycle_news st ++ [item] /\
    cycle_important st' = cycle_important st ++ [item] /\
    NewsItem.title item = title /\
    NewsItem.category item = VStr (PyStr.lit "keyword") /\
    NewsItem.score item = 0.75%float /\
    NewsItem.is_important item = true.
Proof.
  intros Hne Hk Hc Hcity Hkw.
  destruct (process_item_fresh st title link city
              (VStr (PyStr.lit "keyword")) 0.75%float
              (hf_budget st) (hf_calls st) Hne Hk Hc) as [d' ->].
  { unfold classify. by rewrite Hcity, Hkw. }
  destruct label_keyword as (Ht & He).
  unfold with_item, news_item. rewrite Ht, He, Hkw.
  replace ((0 <=? 0.75)%float) with true by reflexivity.
  rewrite orb_true_r. cbn [NewsItem.is_important].
  eexists _, _. split; [reflexivity|]. cbn. by repeat split.
Qed.

(** The label and score when neither rule matches and the remote
    classification gives nothing. *)
Lemma classify_unlabelled (city : str) (budget : Z) (calls : list str) (title : str) :
  title_matches_city title city = false ->
  keyword_prefilter title IMPORTANT_KEYWORDS = false ->
  HF_ENABLE cfg = false \/ HF_API_KEY cfg = [] \/ budget <= 0 \/
    failed (remote (length calls) title) ->
  exists budget' calls',
    classify cfg city budget calls title = (VNone, 0%float, budget', calls') /\
    (budget <= 0 -> budget' = budget /\ calls' = calls).
Proof.
  intros Hcity Hkw Hno. unfold classify. rewrite Hcity, Hkw.
  destruct (HF_ENABLE cfg) eqn:He; cbn [andb]; [|by eexists _, _].
  destruct (HF_API_KEY cfg) as [|c key] eqn:Hkey; cbn [PyStr.nonempty andb];
    [by eexists _, _|].
  destruct (Z.ltb_spec 0 budget) as [Hpos|Hle]; [|by eexists _, _].
  destruct Hno as [? | [? | [? | Hcall]]]; try (discriminate || lia).
  rewrite (hf_classify_failed _ _ Hcall).
  eexists _, _. split; [reflexivity | lia].
Qed.

Lemma process_item_unlabelled (st : state) (title link city : str) :
  PyStr.nonempty title = true ->
  PyStr.strip title ∉ BoundedDedup.set (dedup st) ->
  city_text (USER_CITY st) = Ok city ->
  title_matches_city title city = false ->
  keyword_prefilter title IMPORTANT_KEYWORDS = false ->
  HF_ENABLE cfg = false \/ HF_API_KEY cfg = [] \/ hf_budget st <= 0 \/
    failed (remote (length (hf_calls st)) title) ->
  exists st' item,
    process_item cfg st (title, link)
      = (st', if (HF_SCORE_THRESHOLD cfg <=? 0)%float
              then console (S (ticks st))
                     (Alert title link VNone 0 (now_str (S (ticks st))))
              else None) /\
    cycle_news st' = cycle_news st ++ [item] /\
    cycle_important st' =
      (if (HF_SCORE_THRESHOLD cfg <=? 0)%float
       then cycle_important st ++ [item] else cycle_important st) /\
    NewsItem.title item = title /\
    NewsItem.category item = VStr (PyStr.lit "general") /\
    NewsItem.score item = 0%float /\
    NewsItem.is_important item = (HF_SCORE_THRESHOLD cfg <=? 0)%float /\
    (hf_budget st <= 0 ->
       hf_calls st' = hf_calls st /\ hf_budget st' = hf_budget st).
Proof.
  intros Hne Hk Hc Hcity Hkw Hno.
  destruct (classify_unlabelled _ (hf_budget st) (hf_calls st) _ Hcity Hkw Hno)
    as (b & c & Hcl & Hbc).
  destruct (process_item_fresh st title link city _ _ _ _ Hne Hk Hc Hcl)
    as [d' ->].
  rewrite Hkw. unfold with_item, news_item.
  cbn [Py.truthy Py.eq_str orb andb NewsItem.is_important].
  rewrite orb_false_r.
  eexists _, _. split; [reflexivity|]. cbn.
  repeat (split; [done|]). intros Hle. by destruct (Hbc Hle) as [-> ->].
Qed.

(** C7, amended. A new title that matches neither rule and for which the
    remote classification gives no label (disabled, no key, no budget left,
    or a call that fails) gets an item of category "general" and score 0.0;
    the item is important exactly when [0.0 >= HF_SCORE_THRESHOLD]. For
    every threshold above 0.0 it is not important, nothing is printed for it
    and the body of the loop raises nothing. *)
Theorem unlabelled_item_is_general (st : state) (title link city : str) :
  PyStr.nonempty title = true ->
  PyStr.strip title ∉ BoundedDedup.set (dedup st) ->
  city_text (USER_CITY st) = Ok city ->
  title_matches_city title city = false ->
  keyword_prefilter title IMPORTANT_KEYWORDS = false ->
  HF_ENABLE cfg = false \/ HF_API_KEY cfg = [] \/ hf_budget st <= 0 \/
    failed (remote (length (hf_calls st)) title) ->
  exists st' o item,
    process_item cfg st (title, link) = (st', o) /\
    cycle_news st' = cycle_news st ++ [item] /\
    NewsItem.title item = title /\
    NewsItem.category item = VStr (PyStr.lit "general") /\
    NewsItem.score item = 0%float /\
    NewsItem.is_important item = (HF_SCORE_THRESHOLD cfg <=? 0)%float /\
    ((0 <? HF_SCORE_THRESHOLD cfg)%float = true ->
     NewsItem.is_important item = false /\
     cycle_important st' = cycle_important st /\ o = None).
Proof.
  intros Hne Hk Hc Hcity Hkw Hno.
  destruct (process_item_unlabelled st title link city Hne Hk Hc Hcity Hkw Hno)
    as (st' & item & Hrun & ? & Himps & ? & ? & ? & Himp & ?).
  eexists st', _, item. split; [exact Hrun|]. repeat (split; [done|]).
  intros Hpos. apply positive_threshold_not_reached in Hpos.
  rewrite Himp, Himps, Hpos. done.
Qed.

(** What the body of the loop leaves alone, whether it raises or not: the
    city, the published lists and the cycle number; and it keeps the
    important items of the cycle the important part of its items. *)
Lemma process_item_frame (st : state) (news : str * str) :
  USER_CITY (process_item cfg st news).1 = USER_CITY st /\
  latest_news (process_item cfg st news).1 = latest_news st /\
  important_news (process_item cfg st news).1 = important_news st /\
  cycle (process_item cfg st news).1 = cycle st /\
  (cycle_important st = List.filter NewsItem.is_important (cycle_news st) ->
   cycle_important (process_item cfg st news).1
   = List.filter NewsItem.is_important (cycle_news (process_item cfg st news).1)).
Proof.
  destruct news as [title link].
  destruct (process_item_cases st title link)
    as [[_ ->] | (_ & _ & d' & _ & [(e & _ & ->) |
          (city & label & score & budget & calls & _ & _ & ->)])];
    [done | done |].
  cbn [fst with_item USER_CITY latest_news important_news cycle cycle_news
       cycle_important].
  repeat (split; [done|]). intros Hinv.
  rewrite List.filter_app. cbn [List.filter].
  destruct (NewsItem.is_important _); rewrite Hinv; [done|].
  by rewrite app_nil_r.
Qed.

Lemma process_items_frame (items : list (str * str)) : forall st,
  USER_CITY (process_items cfg st items).1 = USER_CITY st /\
  latest_news (process_items cfg st items).1 = latest_news st /\
  important_news (process_items cfg st items).1 = important_news st /\
  cycle (process_items cfg st items).1 = cycle st /\
  (cycle_important st = List.filter NewsItem.is_important (cycle_news st) ->
   cycle_important (process_items cfg st items).1
   = List.filter NewsItem.is_important (cycle_news (process_items cfg st items).1)).
Proof.
  induction items as [|news items IH]; intros st; cbn [process_items]; [done|].
  pose proof (process_item_frame st news) as (Hu & Hl & Hi & Hc & Hf).
  destruct (process_item cfg st news) as [st1 [e|]]; cbn [fst] in *; [done|].
  destruct (IH st1) as (Hu' & Hl' & Hi' & Hc' & Hf').
  repeat split; [congruence.. | auto].
Qed.

(** The remote calls of the body of the loop, whether it raises or not:
    none, or one for the title, with the client enabled, a key set and
    budget left; each takes one unit from the budget. *)
Lemma process_item_calls (st : state) (news : str * str) :
  exists new,
    hf_calls (process_item cfg st news).1 = hf_calls st ++ new /\
    hf_budget (process_item cfg st news).1
      = hf_budget st - Z.of_nat (length new) /\
    (new = [] \/
     new = [news.1] /\ 0 < hf_budget st /\ HF_ENABLE cfg = true /\
     PyStr.nonempty (HF_API_KEY cfg) = true).
Proof.
  destruct news as [title link].
  destruct (process_item_cases st title link)
    as [[_ ->] | (_ & _ & d' & _ & [(e & _ & ->) |
          (city & label & score & budget & calls & _ & Hcl & ->)])].
  - exists []. rewrite app_nil_r. split; [done|]. split; [simpl; lia | by left].
  - exists []. rewrite app_nil_r. split; [done|]. split; [simpl; lia | by left].
  - cbn [fst with_item hf_calls hf_budget]. revert Hcl. unfold classify.
    destruct (title_matches_city title city).
    { intros [= <- <- <- <-]. exists []. rewrite app_nil_r.
      split; [done|]. split; [simpl; lia | by left]. }
    destruct (keyword_prefilter title IMPORTANT_KEYWORDS).
    { intros [= <- <- <- <-]. exists []. rewrite app_nil_r.
      split; [done|]. split; [simpl; lia | by left]. }
    destruct (HF_ENABLE cfg); cbn [andb].
    2:{ intros [= <- <- <- <-]. exists []. rewrite app_nil_r.
        split; [done|]. split; [simpl; lia | by left]. }
    destruct (PyStr.nonempty (HF_API_KEY cfg)); cbn [andb].
    2:{ intros [= <- <- <- <-]. exists []. rewrite app_nil_r.
        split; [done|]. split; [simpl; lia | by left]. }
    destruct (Z.ltb_spec 0 (hf_budget st)).
    2:{ intros [= <- <- <- <-]. exists []. rewrite app_nil_r.
        split; [done|]. split; [simpl; lia | by left]. }
    destruct (hf_classify cfg _ title) as [l s]. intros [= <- <- <- <-].
    exists [title]. split; [done|]. split; [simpl; lia | by right].
Qed.

Lemma process_items_calls (items : list (str * str)) : forall st,
  exists new,
    hf_calls (process_items cfg st items).1 = hf_calls st ++ new /\
    hf_budget (process_items cfg st items).1
      = hf_budget st - Z.of_nat (length new) /\
    Z.of_nat (length new) <= Z.max 0 (hf_budget st) /\
    Forall (fun t => exists l, In (t, l) items) new /\
    (new = [] \/
     HF_ENABLE cfg = true /\ PyStr.nonempty (HF_API_KEY cfg) = true).
Proof.
  induction items as [|news items IH]; intros st; cbn [process_items].
  - exists []. rewrite app_nil_r. split; [done|]. split; [simpl; lia|].
    split; [simpl; lia|]. split; [constructor | by left].
  - destruct (process_item_calls st news) as (new1 & Hc1 & Hb1 & Hn1).
    assert (Forall (fun t => exists l, In (t, l) (news :: items)) new1) as Hin1.
    { destruct Hn1 as [-> | (-> & _)]; [constructor|].
      constructor; [|constructor]. destruct news as [t l].
      exists l. by left. }
    assert (Z.of_nat (length new1) <= Z.max 0 (hf_budget st)) as Hle1.
    { destruct Hn1 as [-> | (-> & ? & _)]; simpl; lia. }
    destruct (process_item cfg st news) as [st1 [e|]]; cbn [fst] in *.
    { exists new1. repeat (split; [done|]).
      destruct Hn1 as [-> | (_ & _ & ? & ?)]; [by left | by right]. }
    destruct (IH st1) as (new2 & Hc2 & Hb2 & Hle2 & Hin2 & Hn2).
    exists (new1 ++ new2).
    rewrite Hc2, Hc1, Hb2, Hb1, length_app, <- app_assoc.
    split; [done|]. split; [lia|]. split.
    { rewrite Hb1 in Hle2.
      destruct Hn1 as [-> | (-> & Hpos & _)]; simpl in *; lia. }
    split.
    { apply Forall_app. split; [done|].
      eapply Forall_impl; [exact Hin2|].
      intros t [l Hl]. exists l. by right. }
    destruct Hn1 as [-> | (_ & _ & He & Hk)]; [|by right].
    destruct Hn2 as [-> | ?]; [by left | by right].
Qed.

(** C5. While a cycle goes through its items, whether it ends them or
    raises on the way, each call of the remote client takes exactly one unit
    from the budget, whatever the call returns; with no budget left no call
    is made, and a new title that matches neither rule then gets category
    "general" with score 0.0, the calls and the budget staying as they
    are. *)
Theorem remote_budget_per_cycle (st : state) (items : list (str * str)) :
  exists st' o new,
    process_items cfg st items = (st', o) /\
    hf_calls st' = hf_calls st ++ new /\
    hf_budget st' = hf_budget st - Z.of_nat (length new) /\
    (hf_budget st <= 0 -> new = []) /\
    (hf_budget st' <= 0 ->
     forall title link city,
       PyStr.nonempty title = true ->
       PyStr.strip title ∉ BoundedDedup.set (dedup st') ->
       city_text (USER_CITY st') = Ok city ->
       title_matches_city title city = false ->
       keyword_prefilter title IMPORTANT_KEYWORDS = false ->
       exists st'' o' item,
         process_item cfg st' (title, link) = (st'', o') /\
         cycle_news st'' = cycle_news st' ++ [item] /\
         NewsItem.title item = title /\
         NewsItem.category item = VStr (PyStr.lit "general") /\
         NewsItem.score item = 0%float /\
         hf_calls st'' = hf_calls st' /\ hf_budget st'' = hf_budget st').
Proof.
  destruct (process_items_calls items st) as (new & Hc & Hb & Hle & _ & _).
  destruct (process_items cfg st items) as [st' o] eqn:Hrun. cbn [fst] in *.
  exists st', o, new. repeat (split; [done|]). split.
  { intros Hz. destruct new; [done | simpl in Hle; lia]. }
  intros Hz title link city Hne Hk Hcity Hm Hkw.
  destruct (process_item_unlabelled st' title link city Hne Hk Hcity Hm Hkw)
    as (st'' & item & Hitem & ? & _ & ? & ? & ? & _ & Hkeep); [auto|].
  destruct (Hkeep Hz). eexists st'', _, item. split; [exact Hitem|]. done.
Qed.


(** One iteration, whether it raises or not, keeps the published important
    items the important part of the published items. *)
Lemma update_news_cycle_important (st : state) (f : feed) :
  important_news st = List.filter NewsItem.is_important (latest_news st) ->
  important_news (update_news_cycle cfg st f).1
  = List.filter NewsItem.is_important (latest_news (update_news_cycle cfg st f).1).
Proof.
  intros Hinv. unfold update_news_cycle.
  destruct (fetch_rss f) as [|news items]; [done|].
  pose proof (process_items_frame (news :: items) (cycle_start cfg st))
    as (_ & Hl & Hi & _ & Hc).
  destruct (process_items cfg (cycle_start cfg st) (news :: items))
    as [st1 [e|]]; cbn [fst] in *.
  - by rewrite Hl, Hi.
  - specialize (Hc eq_refl).
    destruct (SHOW_EVERY_CYCLE_SUMMARY cfg); [|done].
    by destruct (console _ _).
Qed.

Lemma city_request_important (st : state) (method : http_method) (data : value) :
  important_news (city_request st method data) = important_news st /\
  latest_news (city_request st method data) = latest_news st.
Proof.
  unfold city_request.
  by destruct (api_city method data (USER_CITY st)) as [[resp city]|e].
Qed.

Lemma run_important (evs : list event) : forall st,
  important_news st = List.filter NewsItem.is_important (latest_news st) ->
  important_news (run cfg st evs).1
  = List.filter NewsItem.is_important (latest_news (run cfg st evs).1).
Proof.
  induction evs as [|ev evs IH]; intros st Hinv; cbn [run]; [done|].
  destruct ev as [f|method data].
  - pose proof (update_news_cycle_important st f Hinv) as H1.
    destruct (update_news_cycle cfg st f) as [st1 [e|]]; cbn [fst] in *;
      [done | by apply IH].
  - apply IH. by destruct (city_request_important st method data) as [-> ->].
Qed.

(** C10. Once the worker has built its deduplicator, whatever it goes
    through and whether it is still running or has been ended by an
    exception, the published important items are the published items that
    are important, in the same order; an important item is thus one of the
    published items of the same cycle. *)
Theorem important_news_within_latest_news (city : value) (evs : list event) :
  0 <= SEEN_CAPACITY cfg <= PY_SSIZE_T_MAX ->
  exists st o,
    update_news cfg city evs = Ok (st, o) /\
    important_news st = List.filter NewsItem.is_important (latest_news st) /\
    forall item, In item (important_news st) ->
      In item (latest_news st) /\ NewsItem.is_important item = true.
Proof.
  intros Hc. unfold update_news. rewrite init_empty by done.
  cbn [mbind result_bind mret result_ret].
  pose proof (run_important evs
                (initial city (BoundedDedup.empty (SEEN_CAPACITY cfg))) eq_refl)
    as Hinv.
  destruct (run cfg _ evs) as [st o]. cbn [fst] in Hinv.
  exists st, o. split; [done|]. split; [done|].
  intros item Hin. rewrite Hinv in Hin. by apply List.filter_In in Hin.
Qed.

End WorkerFacts.

(** ** The theorems at work on concrete titles *)

(** The city rule on a title that rich cannot print: the item is
    classified and appended, and the alert ends the worker. *)
Lemma city_rule_takes_precedence_witness :
  @title_matches_city ascii_builtins (PyStr.lit "Fire [/red] in Delhi market")
     (PyStr.lit "Delhi") = true /\
  @keyword_prefilter ascii_builtins (PyStr.lit "Fire [/red] in Delhi market")
     IMPORTANT_KEYWORDS = true /\
  exists st' item,
    @process_item ascii_builtins markup_world default_config start_state
      (PyStr.lit "Fire [/red] in Delhi market", PyStr.lit "https://example.org/1")
      = (st', Some MarkupError) /\
    cycle_news st' = [item] /\
    NewsItem.category item = VStr (PyStr.lit "city-priority") /\
    NewsItem.score item = 1%float.
Proof.
  split; [by vm_compute|]. split; [by vm_compute|].
  destruct (@city_rule_takes_precedence ascii_builtins markup_world
              default_config start_state
              (PyStr.lit "Fire [/red] in Delhi market")
              (PyStr.lit "https://example.org/1") (PyStr.lit "Delhi"))
    as (st' & item & Hrun & Hnews & _ & _ & Hcat & _ & Hscore & _).
  - reflexivity.
  - apply not_elem_of_empty.
  - reflexivity.
  - by vm_compute.
  - by vm_compute.
  - exists st', item. split; [exact Hrun|]. auto.
Defined.

Lemma keyword_rule_forces_importance_witness :
  @title_matches_city ascii_builtins (PyStr.lit "Fire at a warehouse")
     (PyStr.lit "Delhi") = false /\
  @keyword_prefilter ascii_builtins (PyStr.lit "Fire at a warehouse")
     IMPORTANT_KEYWORDS = true /\
  exists st' item,
    @process_item ascii_builtins offline_world (keyed_config [] 0.875) start_state
      (PyStr.lit "Fire at a warehouse", PyStr.lit "https://example.org/2")
      = (st', None) /\
    cycle_news st' = [item] /\
    cycle_important st' = [item] /\
    NewsItem.category item = VStr (PyStr.lit "keyword") /\
    NewsItem.score item = 0.75%float /\
    NewsItem.is_important item = true.
Proof.
  split; [by vm_compute|]. split; [by vm_compute|].
  destruct (@keyword_rule_forces_importance ascii_builtins offline_world
              (keyed_config [] 0.875) start_state (PyStr.lit "Fire at a warehouse")
              (PyStr.lit "https://example.org/2") (PyStr.lit "Delhi"))
    as (st' & item & Hrun & Hnews & Himps & _ & Hcat & Hscore & Himp).
  - reflexivity.
  - apply not_elem_of_empty.
  - reflexivity.
  - by vm_compute.
  - by vm_compute.
  - exists st', item. split; [exact Hrun|]. auto.
Defined.

Lemma unlabelled_item_is_general_witness :
  @title_matches_city ascii_builtins (PyStr.lit "Council approves budget")
     (PyStr.lit "Delhi") = false /\
  @keyword_prefilter ascii_builtins (PyStr.lit "Council approves budget")
     IMPORTANT_KEYWORDS = false /\
  HF_API_KEY default_config = [] /\
  exists st' item,
    @process_item ascii_builtins offline_world default_config start_state
      (PyStr.lit "Council approves budget", PyStr.lit "https://example.org/3")
      = (st', None) /\
    cycle_news st' = [item] /\
    NewsItem.category item = VStr (PyStr.lit "general") /\
    NewsItem.score item = 0%float /\
    NewsItem.is_important item = false.
Proof.
  split; [by vm_compute|]. split; [by vm_compute|]. split; [reflexivity|].
  destruct (@unlabelled_item_is_general ascii_builtins offline_world
              default_config start_state (PyStr.lit "Council approves budget")
              (PyStr.lit "https://example.org/3") (PyStr.lit "Delhi"))
    as (st' & o & item & Hrun & Hnews & _ & Hcat & Hscore & _ & Hpos).
  - reflexivity.
  - apply not_elem_of_empty.
  - reflexivity.
  - by vm_compute.
  - by vm_compute.
  - right; left; reflexivity.
  - destruct Hpos as (Himp & _ & ->); [reflexivity|].
    exists st', item. split; [exact Hrun|]. auto.
Defined.

(** C7, as stated, fails: with the threshold set to 0.0 and no API key, a
    title that matches neither rule gets category "general" and score 0.0
    and is nevertheless important, since [0.0 >= 0.0]. *)
Lemma unlabelled_item_important_counterexample :
  @title_matches_city ascii_builtins (PyStr.lit "Council approves budget")
     (PyStr.lit "Delhi") = false /\
  @keyword_prefilter ascii_builtins (PyStr.lit "Council approves budget")
     IMPORTANT_KEYWORDS = false /\
  HF_API_KEY (keyed_config [] 0) = [] /\
  map (fun item => (NewsItem.category item, NewsItem.score item,
                    NewsItem.is_important item))
    (cycle_news
       (@process_item ascii_builtins offline_world (keyed_config [] 0)
          start_state
          (PyStr.lit "Council approves budget",
           PyStr.lit "https://example.org/3")).1)
  = [(VStr (PyStr.lit "general"), 0%float, true)].
Proof. repeat split; by vm_compute. Qed.

(** The budget at work: with one call left, a first title is sent to the
    service, which takes the last unit; the next title is then "general"
    without a call. *)
Lemma remote_budget_per_cycle_witness :
  exists st' o st'' o' item,
    @process_items ascii_builtins answering_world
       (keyed_config (PyStr.lit "hf_key") 0.5) last_call_state
       [ (PyStr.lit "River overflows its banks", PyStr.lit "https://example.org/5") ]
      = (st', o) /\
    hf_calls st' = [PyStr.lit "River overflows its banks"] /\
    hf_budget st' = 0 /\
    @process_item ascii_builtins answering_world
       (keyed_config (PyStr.lit "hf_key") 0.5) st'
       (PyStr.lit "Council approves budget", PyStr.lit "https://example.org/3")
      = (st'', o') /\
    cycle_news st'' = cycle_news st' ++ [item] /\
    NewsItem.category item = VStr (PyStr.lit "general") /\
    NewsItem.score item = 0%float /\
    hf_calls st'' = hf_calls st' /\ hf_budget st'' = 0.
Proof.
  destruct (@remote_budget_per_cycle ascii_builtins answering_world
              (keyed_config (PyStr.lit "hf_key") 0.5) last_call_state
              [ (PyStr.lit "River overflows its banks",
                 PyStr.lit "https://example.org/5") ])
    as (st' & o & new & Hrun & Hcalls & Hbudget & _ & Hzero).
  assert (hf_calls st' = [PyStr.lit "River overflows its banks"] /\
          (PyStr.strip (PyStr.lit "Council approves budget")
             ∉ BoundedDedup.set (dedup st')) /\
          USER_CITY st' = VStr (PyStr.lit "Delhi")) as (Hc & Hfresh & Hcity).
  { pose proof (f_equal fst Hrun) as Hst. cbn [fst] in Hst. rewrite <- Hst.
    split; [by vm_compute|]. split; [|by vm_compute].
    eapply bool_decide_eq_false_1. by vm_compute. }
  assert (new = [PyStr.lit "River overflows its banks"]) as ->.
  { rewrite Hc in Hcalls.
    change (hf_calls last_call_state) with (@nil str) in Hcalls.
    cbn [app] in Hcalls. congruence. }
  assert (hf_budget st' = 0) as Hb by (rewrite Hbudget; reflexivity).
  destruct (Hzero ltac:(lia) (PyStr.lit "Council approves budget")
              (PyStr.lit "https://example.org/3") (PyStr.lit "Delhi"))
    as (st'' & o' & item & Hitem & Hnews & _ & Hcat & Hscore & Hc' & Hb').
  - reflexivity.
  - exact Hfresh.
  - by rewrite Hcity.
  - by vm_compute.
  - by vm_compute.
  - exists st', o, st'', o', item. rewrite Hb in Hb'.
    split; [exact Hrun|]. split; [exact Hc|]. split; [exact Hb|].
    split; [exact Hitem|]. auto.
Defined.


(** The invariant on a worker that a posted city ends: the first cycle
    publishes, [POST /city] stores the number 5, and the second cycle raises
    [AttributeError] on its first new title. *)
Lemma important_news_within_latest_news_witness :
  0 <= SEEN_CAPACITY default_config <= PY_SSIZE_T_MAX /\
  exists st,
    @update_news ascii_builtins offline_world default_config
      (VStr (PyStr.lit "Delhi"))
      [ Cycle (Parsed [ {| e_title := Some (PyStr.lit "Fire in Delhi market");
                           e_link := Some (PyStr.lit "https://example.org/1") |};
                        {| e_title := Some (PyStr.lit "Council approves budget");
                           e_link := Some (PyStr.lit "https://example.org/3") |} ]);
        Request POST (VDict [ (PyStr.lit "city", VInt 5) ]);
        Cycle (Parsed [ {| e_title := Some (PyStr.lit "Flood in Mumbai");
                           e_link := Some (PyStr.lit "https://example.org/6") |} ]) ]
      = Ok (st, Some AttributeError) /\
    length (latest_news st) = 2%nat /\
    important_news st = List.filter NewsItem.is_important (latest_news st).
Proof.
  split; [by vm_compute|].
  destruct (@important_news_within_latest_news ascii_builtins offline_world
              default_config (VStr (PyStr.lit "Delhi"))
              [ Cycle (Parsed [ {| e_title := Some (PyStr.lit "Fire in Delhi market");
                                   e_link := Some (PyStr.lit "https://example.org/1") |};
                                {| e_title := Some (PyStr.lit "Council approves budget");
                                   e_link := Some (PyStr.lit "https://example.org/3") |} ]);
                Request POST (VDict [ (PyStr.lit "city", VInt 5) ]);
                Cycle (Parsed [ {| e_title := Some (PyStr.lit "Flood in Mumbai");
                                   e_link := Some (PyStr.lit "https://example.org/6") |} ]) ])
    as (st & o & Hrun & Hf & _); [by vm_compute|].
  match type of Hrun with ?u = _ =>
    assert (match u with
            | Ok r => (r.2, length (latest_news r.1))
            | Raise _ => (None, 0%nat)
            end = (Some AttributeError, 2%nat)) as Ho by (by vm_compute)
  end.
  rewrite Hrun in Ho. cbn [fst snd] in Ho. injection Ho as -> Hlen.
  exists st. auto.
Defined.
(** * Further properties *)

(** ** The deduplicator as a sliding window *)

Section WindowFacts.
Import BoundedDedup.

Lemma lastn_all {A} (n : nat) (l : list A) :
  (length l <= n)%nat -> lastn n l = l.
Proof.
  intros Hle. unfold lastn.
  by replace (length l - n)%nat with 0%nat by lia.
Qed.

Lemma lastn_app_lastn {A} (n : nat) (a b : list A) :
  lastn n (lastn n a ++ b) = lastn n (a ++ b).
Proof.
  destruct (decide (length a <= n)%nat) as [Hle|Hgt].
  - by rewrite (lastn_all n a).
  - unfold lastn. rewrite !length_app, length_drop.
    replace (length a - (length a - n) + length b - n)%nat
      with (length b) by lia.
    replace (length a + length b - n)%nat
      with ((length a - n) + length b)%nat by lia.
    rewrite <- drop_drop. by rewrite (drop_app_le a b) by lia.
Qed.

Lemma append_lastn (q : Deque.deque) (k : str) :
  0 <= Deque.maxlen q ->
  Z.of_nat (length (Deque.items q)) <= Deque.maxlen q ->
  Deque.items (Deque.append q k) =
    lastn (Z.to_nat (Deque.maxlen q)) (Deque.items q ++ [k]).
Proof.
  intros Hc Hlen. rewrite append_items.
  destruct (Z.ltb_spec (Deque.maxlen q)
              (Z.of_nat (length (Deque.items q)) + 1)).
  - unfold lastn. rewrite length_app. simpl.
    replace (length (Deque.items q) + 1 - Z.to_nat (Deque.maxlen q))%nat
      with 1%nat by lia.
    by destruct (Deque.items q ++ [k]).
  - rewrite lastn_all; [done|]. rewrite length_app. simpl. lia.
Qed.

Lemma seen_all_window keys : forall d bs d',
  consistent d -> seen_all d keys = Ok (bs, d') ->
  Deque.items (queue d') =
    lastn (Z.to_nat (capacity d)) (Deque.items (queue d) ++ recorded keys bs).
Proof.
  induction keys as [|key keys IH]; simpl; intros d bs d' Hd Hs.
  - injection Hs as <- <-. rewrite app_nil_r.
    destruct Hd as (? & ? & ? & ? & ?). rewrite lastn_all; [done | lia].
  - destruct (seen d key) as [[b d1]|] eqn:H1; [|discriminate].
    cbn [mbind result_bind] in Hs.
    destruct (seen_all d1 keys) as [[bs1 d2]|] eqn:H2; [|discriminate].
    cbn [mbind result_bind mret result_ret] in Hs. injection Hs as <- <-.
    destruct (seen_consistent _ _ _ _ Hd H1) as [Hd1 Hc1].
    rewrite (IH _ _ _ Hd1 H2), Hc1.
    destruct (decide (PyStr.strip key ∈ set d)) as [Hk|Hk].
    + rewrite seen_known in H1 by done. by injection H1 as <- <-.
    + rewrite seen_fresh in H1 by done. injection H1 as <- <-.
      cbn [queue]. destruct Hd as (? & Hm & ? & ? & ?).
      rewrite append_lastn by lia. rewrite Hm.
      rewrite lastn_app_lastn. by rewrite <- app_assoc.
Qed.

(** X1. After any sequence of [seen] calls on a fresh deduplicator of a
    capacity [c >= 0] that the constructor accepts, the queue holds exactly
    the last [c] recorded keys, in the order in which they were recorded,
    and the set holds the same keys. *)
Theorem dedup_holds_last_recorded (c : Z) (keys : list str) :
  0 <= c <= PY_SSIZE_T_MAX ->
  exists d0 bs d,
    init c = Ok d0 /\ seen_all d0 keys = Ok (bs, d) /\
    Deque.items (queue d) = lastn (Z.to_nat c) (recorded keys bs) /\
    set d = list_to_set (lastn (Z.to_nat c) (recorded keys bs)).
Proof.
  intros Hc. exists (empty c). rewrite init_empty by done.
  destruct (init_consistent c (empty c) (init_empty c Hc)) as [Hd0 Hc0].
  destruct (seen_all_total keys (empty c)) as (bs & d & Hrun).
  exists bs, d. split; [done|]. split; [done|].
  pose proof (seen_all_window keys _ _ _ Hd0 Hrun) as Hq. simpl in Hq.
  destruct (seen_all_consistent _ _ _ _ Hd0 Hrun) as [(_ & _ & _ & _ & Hset) _].
  split; [done|]. by rewrite Hset, Hq.
Qed.

Lemma dedup_holds_last_recorded_witness :
  0 <= 2 <= PY_SSIZE_T_MAX /\
  exists d0 bs d,
    init 2 = Ok d0 /\
    seen_all d0 [PyStr.lit "a"; PyStr.lit "b"; PyStr.lit "a"; PyStr.lit "c"]
      = Ok (bs, d) /\
    Deque.items (queue d) =
      lastn 2 (recorded [PyStr.lit "a"; PyStr.lit "b"; PyStr.lit "a"; PyStr.lit "c"] bs).
Proof.
  split; [by vm_compute|].
  destruct (dedup_holds_last_recorded 2
              [PyStr.lit "a"; PyStr.lit "b"; PyStr.lit "a"; PyStr.lit "c"])
    as (d0 & bs & d & Hi & Hr & Hq & _); [by vm_compute|].
  exists d0, bs, d. auto.
Defined.

(** X2. On a deduplicator of capacity at least 1, a key that was just passed
    to [seen] is known: the next call with a key that strips to the same
    string answers [True] and changes nothing. *)
Theorem seen_then_seen_again (d : t) (key key' : str) :
  consistent d -> 1 <= capacity d ->
  PyStr.strip key' = PyStr.strip key ->
  exists b d', seen d key = Ok (b, d') /\ seen d' key' = Ok (true, d').
Proof.
  intros Hd Hc Hk. destruct (decide (PyStr.strip key ∈ set d)) as [Hin|Hnew].
  - exists true, d. rewrite !seen_known; [done | by rewrite Hk | done].
  - eexists _, _. split; [by apply seen_fresh|].
    apply seen_known. rewrite Hk. cbn [set queue].
    apply elem_of_list_to_set. destruct Hd as (_ & Hm & _ & Hlen & _).
    rewrite append_items, Hm.
    destruct (Z.ltb_spec (capacity d)
                (Z.of_nat (length (Deque.items (queue d))) + 1)).
    + destruct (Deque.items (queue d)) as [|o r]; simpl in *; [lia|].
      apply elem_of_app. right. by apply list_elem_of_singleton.
    + apply elem_of_app. right. by apply list_elem_of_singleton.
Qed.

Lemma seen_then_seen_again_witness :
  consistent (empty 1) /\ 1 <= capacity (empty 1) /\
  exists b d',
    seen (empty 1) (PyStr.lit "Flood alert") = Ok (b, d') /\
    seen d' (PyStr.lit "  Flood alert ") = Ok (true, d').
Proof.
  assert (consistent (empty 1)) as Hd.
  { apply (init_consistent 1). by vm_compute. }
  split; [exact Hd|]. split; [by vm_compute|].
  apply (seen_then_seen_again (empty 1)); [exact Hd | by vm_compute | by vm_compute].
Defined.

End WindowFacts.

(** ** Text utilities *)

Lemma lstrip_blank_prefix (ws s : str) :
  blank ws -> PyStr.lstrip (ws ++ s) = PyStr.lstrip s.
Proof. induction 1 as [|c ws Hc _ IH]; simpl; [done|]. by rewrite Hc. Qed.

Lemma lstrip_nil_blank (s : str) : PyStr.lstrip s = [] -> blank s.
Proof.
  unfold blank. induction s as [|c s IH]; simpl; [constructor|].
  destruct (PyStr.isspace c) eqn:Hc; [|discriminate].
  intros Hs. constructor; [exact Hc | exact (IH Hs)].
Qed.

Lemma lstrip_blank (s : str) : blank s -> PyStr.lstrip s = [].
Proof. intros Hs. by rewrite <- (app_nil_r s), lstrip_blank_prefix. Qed.

Lemma lstrip_app (s t : str) :
  PyStr.lstrip s <> [] -> PyStr.lstrip (s ++ t) = PyStr.lstrip s ++ t.
Proof.
  induction s as [|c s IH]; simpl; [done|].
  destruct (PyStr.isspace c); [exact IH | done].
Qed.

Lemma rstrip_blank_suffix (s ws : str) :
  blank ws -> PyStr.rstrip (s ++ ws) = PyStr.rstrip s.
Proof.
  intros Hws. unfold PyStr.rstrip. rewrite rev_app_distr.
  rewrite lstrip_blank_prefix; [done|].
  by apply List.Forall_rev.
Qed.

Lemma strip_padding (ws s ws' : str) :
  blank ws -> blank ws' -> PyStr.strip (ws ++ s ++ ws') = PyStr.strip s.
Proof.
  intros Hws Hws'. unfold PyStr.strip. rewrite lstrip_blank_prefix by done.
  destruct (PyStr.lstrip s) as [|c r] eqn:Hs.
  - rewrite lstrip_blank; [done|].
    apply Forall_app. split; [by apply lstrip_nil_blank | done].
  - rewrite lstrip_app by (by rewrite Hs). rewrite Hs.
    by apply rstrip_blank_suffix.
Qed.

Lemma startswith_iff (t p : str) :
  PyStr.startswith t p = true <-> exists post, t = p ++ post.
Proof.
  revert t. induction p as [|x p IH]; intros t.
  - destruct t; simpl; split; eauto.
  - destruct t as [|y t]; simpl.
    + split; [discriminate | by intros [post ?]].
    + rewrite andb_true_iff, N.eqb_eq, IH. split.
      * intros [-> [post ->]]. eauto.
      * intros [post [= -> ->]]. eauto.
Qed.

Lemma contains_iff (t p : str) :
  PyStr.contains t p = true <-> exists pre post, t = pre ++ p ++ post.
Proof.
  induction t as [|y t IH].
  - cbn [PyStr.contains]. rewrite orb_false_r, startswith_iff. split.
    + intros [post ->]. by exists [], post.
    + intros (pre & post & Heq). destruct pre; [by exists post|discriminate].
  - cbn [PyStr.contains]. rewrite orb_true_iff, startswith_iff, IH. split.
    + intros [[post ->] | (pre & post & ->)].
      * by exists [], post.
      * by exists (y :: pre), post.
    + intros ([|z pre] & post & Heq).
      * left. by exists post.
      * right. injection Heq as -> ->. by exists pre, post.
Qed.

Section TextFacts.
Context `{Builtins}.

(** X3. [normalize_text] ignores white space around its argument. *)
Theorem normalize_text_ignores_padding (ws s ws' : str) :
  blank ws -> blank ws' ->
  normalize_text (ws ++ s ++ ws') = normalize_text s.
Proof. intros Hws Hws'. unfold normalize_text. by rewrite strip_padding. Qed.

(** X4. [keyword_prefilter] answers [True] exactly when one of the keywords
    occurs as a substring of the normalized title. *)
Theorem keyword_prefilter_iff (title : str) (keywords : list str) :
  keyword_prefilter title keywords = true <->
  exists k pre post,
    In k keywords /\ normalize_text title = pre ++ k ++ post.
Proof.
  unfold keyword_prefilter. rewrite existsb_exists. split.
  - intros (k & Hin & (pre & post & Heq)%contains_iff). by exists k, pre, post.
  - intros (k & pre & post & Hin & Heq). exists k. split; [done|].
    apply contains_iff. by exists pre, post.
Qed.

Lemma city_aliases_self (city : str) :
  In (normalize_text city) (city_aliases city).
Proof.
  unfold city_aliases, CITY_SYNONYMS.
  destruct (decide (PyStr.lit "delhi" = normalize_text city)) as [<-|?].
  { rewrite lookup_insert_eq. by left. }
  rewrite lookup_insert_ne by done.
  destruct (decide (PyStr.lit "mumbai" = normalize_text city)) as [<-|?].
  { rewrite lookup_insert_eq. by left. }
  rewrite lookup_insert_ne by done.
  destruct (decide (PyStr.lit "bengaluru" = normalize_text city)) as [<-|?].
  { rewrite lookup_insert_eq. by left. }
  rewrite lookup_insert_ne by done.
  rewrite lookup_empty. by left.
Qed.

(** X5. A title whose normalized form contains the normalized name of the
    city matches the city, whether the city has a list of synonyms or not. *)
Theorem title_with_city_name_matches (title city : str) :
  PyStr.contains (normalize_text title) (normalize_text city) = true ->
  title_matches_city title city = true.
Proof.
  intros Hc. unfold title_matches_city. apply existsb_exists.
  exists (normalize_text city). split; [apply city_aliases_self | done].
Qed.

(** X6. A city whose normalized name is empty matches every title. *)
Theorem blank_city_matches_every_title (title city : str) :
  normalize_text city = [] ->
  title_matches_city title city = true.
Proof.
  intros Hc. apply title_with_city_name_matches. rewrite Hc.
  by destruct (normalize_text title).
Qed.

End TextFacts.

Lemma normalize_text_ignores_padding_witness :
  blank (PyStr.lit "  ") /\ blank [10%N] /\
  @normalize_text ascii_builtins (PyStr.lit "  " ++ PyStr.lit "Flood Alert" ++ [10%N])
    = @normalize_text ascii_builtins (PyStr.lit "Flood Alert").
Proof.
  assert (blank (PyStr.lit "  ")) as H1 by (repeat constructor).
  assert (blank [10%N]) as H2 by (repeat constructor).
  split; [exact H1|]. split; [exact H2|].
  exact (@normalize_text_ignores_padding ascii_builtins _ _ _ H1 H2).
Defined.

Lemma title_with_city_name_matches_witness :
  PyStr.contains (@normalize_text ascii_builtins (PyStr.lit "Rain in Pune today"))
    (@normalize_text ascii_builtins (PyStr.lit " Pune ")) = true /\
  @title_matches_city ascii_builtins (PyStr.lit "Rain in Pune today")
    (PyStr.lit " Pune ") = true.
Proof.
  split; [by vm_compute|].
  apply (@title_with_city_name_matches ascii_builtins). by vm_compute.
Defined.

Lemma blank_city_matches_every_title_witness :
  @normalize_text ascii_builtins (PyStr.lit "   ") = [] /\
  @title_matches_city ascii_builtins (PyStr.lit "Council approves budget")
    (PyStr.lit "   ") = true.
Proof.
  split; [by vm_compute|].
  apply (@blank_city_matches_every_title ascii_builtins). by vm_compute.
Defined.

(** ** The classification client, the feed and the city endpoint *)

Section EdgeFacts.
Context `{Builtins}.

(** X7. With the client enabled and a key set, a response object whose
    ["labels"] and ["scores"] are lists that are not empty gives the first
    label together with [float] of the first score, when [float] accepts
    it. *)
Theorem hf_classify_reads_top_label
    (cfg : config) (kv : list (str * value)) (label x : value)
    (labels scores : list value) (score : PrimFloat.float) (text : str) :
  HF_ENABLE cfg = true ->
  PyStr.nonempty (HF_API_KEY cfg) = true ->
  Py.dict_get kv (PyStr.lit "labels") = Some (VList (label :: labels)) ->
  Py.dict_get kv (PyStr.lit "scores") = Some (VList (x :: scores)) ->
  Py.float x = Ok score ->
  hf_classify cfg (Body (VDict kv)) text = (label, score).
Proof.
  intros He Hk Hl Hs Hf. unfold hf_classify. rewrite He, Hk. cbn [negb orb].
  unfold hf_request. cbn [mbind result_bind].
  rewrite (dict_get_Some _ _ _ Hl), (dict_get_Some _ _ _ Hs).
  unfold Py.getitem. rewrite Hl, Hs. cbn [mbind result_bind Py.getitem0].
  by rewrite Hf.
Qed.

Lemma mapM_entries (entries : list entry) :
  mapM (fun e : entry =>
          match e_title e, e_link e with
          | Some t, Some l => Ok (t, l)
          | _, _ => Raise AttributeError
          end) entries
  = (if forallb complete entries
     then Ok (omap (fun e => t ← e_title e; l ← e_link e; Some (t, l)) entries)
     else Raise AttributeError)
  /\ (forallb complete entries = true ->
      map entry_of
        (omap (fun e => t ← e_title e; l ← e_link e; Some (t, l)) entries)
      = entries).
Proof.
  induction entries as [|[[t|] [l|]] entries [IH1 IH2]]; [done|..];
    try (split; [done | discriminate]).
  split.
  - cbn. rewrite IH1. by destruct (forallb complete entries).
  - cbn. intros Hall. by rewrite (IH2 Hall).
Qed.

(** X8. [fetch_rss] keeps a parsed feed whole or not at all: when every
    entry has a title and a link, the items are the entries, in order; when
    one entry lacks either, no item is returned. *)
Theorem fetch_rss_all_or_nothing (entries : list entry) :
  map entry_of (fetch_rss (Parsed entries))
  = if forallb complete entries then entries else [].
Proof.
  unfold fetch_rss. cbn [mbind result_bind].
  destruct (mapM_entries entries) as [-> Hmap].
  destruct (forallb complete entries); [|done]. by apply Hmap.
Qed.

End EdgeFacts.

Lemma hf_classify_reads_top_label_witness :
  @hf_classify ascii_builtins (keyed_config (PyStr.lit "hf_key") 0.5)
    (Body (VDict [ (PyStr.lit "labels",
                    VList [VStr (PyStr.lit "flood"); VStr (PyStr.lit "fire")]);
                   (PyStr.lit "scores", VList [VFloat 0.75; VInt 0]) ]))
    (PyStr.lit "River overflows")
  = (VStr (PyStr.lit "flood"), 0.75%float).
Proof.
  by apply (@hf_classify_reads_top_label ascii_builtins _ _ _ (VFloat 0.75)
              [VStr (PyStr.lit "fire")] [VInt 0]).
Defined.

(** X9. A [POST] whose body is an object with a ["city"] entry sets the city
    to that entry and answers with it; a [GET] after it answers the same
    city and leaves it in place. *)
Theorem api_city_post_then_get (kv : list (str * value)) (c old : value) :
  Py.dict_get kv (PyStr.lit "city") = Some c ->
  exists resp,
    api_city POST (VDict kv) old = Ok (resp, c) /\
    Py.getitem resp (PyStr.lit "city") = Ok c /\
    forall data,
      api_city GET data c = Ok (VDict [ (PyStr.lit "city", c) ], c).
Proof.
  intros Hc. unfold api_city. rewrite (dict_get_Some _ _ _ Hc).
  cbn [mbind result_bind mret result_ret]. unfold Py.getitem at 1. rewrite Hc.
  cbn [mbind result_bind]. eexists. split; [reflexivity|]. by split.
Qed.

Lemma api_city_post_then_get_witness :
  Py.dict_get [ (PyStr.lit "city", VStr (PyStr.lit "Mumbai")) ] (PyStr.lit "city")
    = Some (VStr (PyStr.lit "Mumbai")) /\
  exists resp,
    api_city POST (VDict [ (PyStr.lit "city", VStr (PyStr.lit "Mumbai")) ])
      (VStr (PyStr.lit "Delhi")) = Ok (resp, VStr (PyStr.lit "Mumbai")).
Proof.
  split; [by vm_compute|].
  destruct (api_city_post_then_get
              [ (PyStr.lit "city", VStr (PyStr.lit "Mumbai")) ]
              (VStr (PyStr.lit "Mumbai")) (VStr (PyStr.lit "Delhi")))
    as (resp & Hpost & _); [by vm_compute|].
  by exists resp.
Defined.

(** X10. A [POST] whose body is an object without a ["city"] entry answers
    "City not provided" and leaves the city as it was. *)
Theorem api_city_post_without_city (kv : list (str * value)) (old : value) :
  Py.dict_get kv (PyStr.lit "city") = None ->
  api_city POST (VDict kv) old = Ok (city_not_provided, old).
Proof. intros Hc. unfold api_city. by rewrite (dict_get_None _ _ Hc). Qed.

Lemma api_city_post_without_city_witness :
  Py.dict_get [ (PyStr.lit "town", VStr (PyStr.lit "Mumbai")) ] (PyStr.lit "city")
    = None /\
  api_city POST (VDict [ (PyStr.lit "town", VStr (PyStr.lit "Mumbai")) ])
    (VStr (PyStr.lit "Delhi")) = Ok (city_not_provided, VStr (PyStr.lit "Delhi")).
Proof.
  split; [by vm_compute|]. apply api_city_post_without_city. by vm_compute.
Defined.

(** X11. [api_city] sets the city only on a [POST] whose body is an object
    with a ["city"] entry, and then to that entry. A body that is not an
    object never sets it: the request raises [TypeError] or is answered
    "City not provided". *)
Theorem api_city_sets_city_only_from_object
    (method : http_method) (data old : value) :
  (forall resp new,
     api_city method data old = Ok (resp, new) -> new <> old ->
     method = POST /\
     exists kv, data = VDict kv /\ Py.dict_get kv (PyStr.lit "city") = Some new) /\
  ((forall kv, data <> VDict kv) ->
   api_city POST data old = Raise TypeError \/
   api_city POST data old = Ok (city_not_provided, old)).
Proof.
  split.
  - intros resp new Hrun Hne. destruct method; [by injection Hrun as _ <-|].
    split; [done|]. unfold api_city in Hrun.
    destruct data as [| | | |s|l|kv]; try discriminate.
    + cbn in Hrun. destruct (PyStr.contains s _); [discriminate|].
      by injection Hrun as _ <-.
    + cbn in Hrun. destruct (existsb _ l); [discriminate|].
      by injection Hrun as _ <-.
    + exists kv. split; [done|].
      destruct (Py.dict_get kv (PyStr.lit "city")) as [c|] eqn:Hc.
      * rewrite (dict_get_Some _ _ _ Hc) in Hrun.
        cbn [mbind result_bind mret result_ret] in Hrun.
        unfold Py.getitem in Hrun. rewrite Hc in Hrun.
        by injection Hrun as _ <-.
      * rewrite (dict_get_None _ _ Hc) in Hrun. by injection Hrun as _ <-.
  - intros Hobj. unfold api_city.
    destruct data as [| | | |s|l|kv]; try (by left).
    + cbn. destruct (PyStr.contains s _); [by left | by right].
    + cbn. destruct (existsb _ l); [by left | by right].
    + by destruct (Hobj kv).
Qed.

(** ** The worker, cycle by cycle *)

Section CycleFacts.
Context `{Builtins} `{World}.
Variable cfg : config.

Lemma process_items_skipped (items : list (str * str)) (st : state) :
  Forall (fun news => news.1 = [] \/
                      PyStr.strip news.1 ∈ BoundedDedup.set (dedup st)) items ->
  process_items cfg st items = (st, None).
Proof.
  induction 1 as [|[title link] items Hx _ IH]; [done|].
  cbn [process_items]. simpl in Hx.
  destruct (process_item_cases cfg st title link) as [[_ ->] | (Hne & Hk & _)].
  - exact IH.
  - by destruct Hx.
Qed.

(** X12. A feed that brings items, all of them without a title or with a
    title the deduplicator knows, publishes two empty lists in place of the
    earlier results; the deduplicator is left as it was and no remote call
    is made. This holds whether the summary and the sleep that follow
    raise or not; without a summary only the sleep can raise. *)
Theorem nothing_new_publishes_nothing (st : state) (f : feed) :
  fetch_rss f <> [] ->
  Forall (fun news => news.1 = [] \/
                      PyStr.strip news.1 ∈ BoundedDedup.set (dedup st))
         (fetch_rss f) ->
  exists st' o,
    update_news_cycle cfg st f = (st', o) /\
    latest_news st' = [] /\ important_news st' = [] /\
    dedup st' = dedup st /\ hf_calls st' = hf_calls st /\
    (SHOW_EVERY_CYCLE_SUMMARY cfg = false ->
     o = time_sleep (REFRESH_INTERVAL cfg)).
Proof.
  intros Hne Hall. unfold update_news_cycle.
  destruct (fetch_rss f) as [|news items] eqn:Hf; [done|].
  rewrite process_items_skipped by done.
  destruct (SHOW_EVERY_CYCLE_SUMMARY cfg).
  - destruct (console _ _); eexists _, _; (split; [reflexivity|]); by cbn.
  - eexists _, _. split; [reflexivity|]. by cbn.
Qed.

(** X13. One iteration of the loop, whether it ends or raises, makes at
    most [HF_MAX_PER_CYCLE] calls of the remote client, none when that
    number is not positive, when the client is disabled or when no key is
    set; each call is made with a title of the feed. *)
Theorem remote_calls_bounded_per_cycle (st : state) (f : feed) :
  exists st' o new,
    update_news_cycle cfg st f = (st', o) /\
    hf_calls st' = hf_calls st ++ new /\
    Z.of_nat (length new) <= Z.max 0 (HF_MAX_PER_CYCLE cfg) /\
    Forall (fun t => exists l, In (t, l) (fetch_rss f)) new /\
    (HF_ENABLE cfg = false \/ HF_API_KEY cfg = [] -> new = []).
Proof.
  unfold update_news_cycle.
  destruct (fetch_rss f) as [|news items].
  { eexists _, _, []. split; [reflexivity|]. cbn [hf_calls].
    rewrite app_nil_r. split; [done|]. split; [simpl; lia|].
    split; [constructor | done]. }
  destruct (process_items_calls cfg (news :: items) (cycle_start cfg st))
    as (new & Hc & _ & Hle & Hin & Hn).
  assert (HF_ENABLE cfg = false \/ HF_API_KEY cfg = [] -> new = []) as Hoff.
  { intros Hoff. destruct Hn as [-> | [He Hk]]; [done|].
    destruct Hoff as [Hoff | Hoff]; [congruence|].
    rewrite Hoff in Hk. discriminate. }
  destruct (process_items cfg (cycle_start cfg st) (news :: items))
    as [st1 [e|]]; cbn [fst cycle_start hf_calls hf_budget] in *.
  - by eexists _, _, new.
  - destruct (SHOW_EVERY_CYCLE_SUMMARY cfg); [destruct (console _ _)|];
      by eexists _, _, new.
Qed.

(** What the body of the loop does to the deduplicator, whether it raises
    or not. *)
Lemma process_item_dedup (st : state) (news : str * str) :
  BoundedDedup.consistent (dedup st) ->
  BoundedDedup.consistent (dedup (process_item cfg st news).1) /\
  BoundedDedup.capacity (dedup (process_item cfg st news).1)
    = BoundedDedup.capacity (dedup st) /\
  (Z.of_nat (length (Deque.items (BoundedDedup.queue (dedup st))))
     < BoundedDedup.capacity (dedup st) ->
   (length (Deque.items (BoundedDedup.queue (dedup (process_item cfg st news).1)))
      <= S (length (Deque.items (BoundedDedup.queue (dedup st)))))%nat /\
   (forall k, k ∈ BoundedDedup.set (dedup st) ->
              k ∈ BoundedDedup.set (dedup (process_item cfg st news).1)) /\
   (news.1 <> [] ->
    PyStr.strip news.1 ∈ BoundedDedup.set (dedup (process_item cfg st news).1))).
Proof.
  intros Hd. destruct news as [title link].
  assert (forall st1 o d',
    process_item cfg st (title, link) = (st1, o) -> dedup st1 = d' ->
    title <> [] -> PyStr.strip title ∉ BoundedDedup.set (dedup st) ->
    BoundedDedup.seen (dedup st) title = Ok (false, d') ->
    BoundedDedup.consistent (dedup (process_item cfg st (title, link)).1) /\
    BoundedDedup.capacity (dedup (process_item cfg st (title, link)).1)
      = BoundedDedup.capacity (dedup st) /\
    (Z.of_nat (length (Deque.items (BoundedDedup.queue (dedup st))))
       < BoundedDedup.capacity (dedup st) ->
     (length (Deque.items (BoundedDedup.queue
                (dedup (process_item cfg st (title, link)).1)))
        <= S (length (Deque.items (BoundedDedup.queue (dedup st)))))%nat /\
     (forall k, k ∈ BoundedDedup.set (dedup st) ->
                k ∈ BoundedDedup.set (dedup (process_item cfg st (title, link)).1)) /\
     ((title, link).1 <> [] ->
      PyStr.strip (title, link).1
        ∈ BoundedDedup.set (dedup (process_item cfg st (title, link)).1))))
    as Hfresh.
  { intros st1 o d' -> Hst1 Hne Hk Hseen. cbn [fst]. rewrite Hst1.
    destruct (seen_consistent _ _ _ _ Hd Hseen) as [Hd' Hc'].
    split; [done|]. split; [done|].
    rewrite seen_fresh in Hseen by done.
    assert (d' =
      {| BoundedDedup.capacity := BoundedDedup.capacity (dedup st);
         BoundedDedup.queue :=
           Deque.append (BoundedDedup.queue (dedup st)) (PyStr.strip title);
         BoundedDedup.set :=
           list_to_set
             (Deque.items
                (Deque.append (BoundedDedup.queue (dedup st)) (PyStr.strip title)))
      |}) as -> by congruence.
    cbn [BoundedDedup.queue BoundedDedup.set]. intros Hroom.
    destruct Hd as (_ & Hm & _ & _ & Hset).
    rewrite append_items, Hm.
    destruct (Z.ltb_spec (BoundedDedup.capacity (dedup st))
                (Z.of_nat (length (Deque.items (BoundedDedup.queue (dedup st)))) + 1));
      [lia|].
    rewrite length_app. cbn [length]. split; [lia|]. split.
    + intros k Hin. rewrite Hset in Hin.
      rewrite elem_of_list_to_set in Hin.
      rewrite elem_of_list_to_set, elem_of_app. by left.
    + intros _. rewrite elem_of_list_to_set, elem_of_app. right.
      by apply list_elem_of_singleton. }
  destruct (process_item_cases cfg st title link)
    as [[Hskip Hrun] | (Hne & Hk & d' & Hseen & [(e & _ & Hrun) |
          (city & label & score & budget & calls & _ & _ & Hrun)])].
  - rewrite Hrun. cbn [fst]. split; [done|]. split; [done|]. intros _.
    split; [lia|]. split; [done|]. by destruct Hskip.
  - by apply (Hfresh _ _ d' Hrun).
  - by apply (Hfresh _ _ d' Hrun).
Qed.

Lemma process_items_dedup (items : list (str * str)) : forall st,
  BoundedDedup.consistent (dedup st) ->
  BoundedDedup.consistent (dedup (process_items cfg st items).1) /\
  BoundedDedup.capacity (dedup (process_items cfg st items).1)
    = BoundedDedup.capacity (dedup st) /\
  (Z.of_nat (length (Deque.items (BoundedDedup.queue (dedup st))))
     + Z.of_nat (length items) <= BoundedDedup.capacity (dedup st) ->
   (length (Deque.items (BoundedDedup.queue (dedup (process_items cfg st items).1)))
      <= length (Deque.items (BoundedDedup.queue (dedup st)))
         + length items)%nat /\
   (forall k, k ∈ BoundedDedup.set (dedup st) ->
              k ∈ BoundedDedup.set (dedup (process_items cfg st items).1)) /\
   ((process_items cfg st items).2 = None ->
    Forall (fun news =>
              news.1 = [] \/
              PyStr.strip news.1
                ∈ BoundedDedup.set (dedup (process_items cfg st items).1))
           items)).
Proof.
  induction items as [|news items IH]; intros st Hd; cbn [process_items].
  - do 2 (split; [done|]). intros _. split; [cbn; lia|].
    split; [done|]. intros _. constructor.
  - pose proof (process_item_dedup st news Hd) as (Hd1 & Hc1 & Hroom1).
    destruct (process_item cfg st news) as [st1 [e|]]; cbn [fst snd] in *.
    { do 2 (split; [done|]). cbn [length]. intros Hroom.
      destruct Hroom1 as (Hl1 & Hs1 & _); [lia|].
      split; [lia|]. split; [done|]. discriminate. }
    destruct (IH st1 Hd1) as (Hd2 & Hc2 & Hroom2).
    split; [done|]. split; [congruence|].
    cbn [length]. intros Hroom.
    destruct Hroom1 as (Hl1 & Hs1 & Hk1); [lia|].
    destruct Hroom2 as (Hl2 & Hs2 & Hk2); [rewrite Hc1; lia|].
    split; [lia|]. split; [auto|]. intros Hnone.
    constructor; [|by apply Hk2].
    destruct (decide (news.1 = [])) as [?|Hne]; [by left|].
    right. apply Hs2. by apply Hk1.
Qed.

(** X14. When the deduplicator has room for every item of a feed and a
    cycle on that feed ends without raising, polling the same feed once
    more publishes two empty lists: every title of the feed is known by
    then, and no remote call is made. *)
Theorem second_poll_publishes_nothing (st st1 : state) (f : feed) :
  BoundedDedup.consistent (dedup st) ->
  Z.of_nat (length (Deque.items (BoundedDedup.queue (dedup st))))
    + Z.of_nat (length (fetch_rss f)) <= BoundedDedup.capacity (dedup st) ->
  fetch_rss f <> [] ->
  update_news_cycle cfg st f = (st1, None) ->
  exists st2 o,
    update_news_cycle cfg st1 f = (st2, o) /\
    latest_news st2 = [] /\ important_news st2 = [] /\
    hf_calls st2 = hf_calls st1.
Proof.
  intros Hd Hroom Hne Hfirst.
  assert (Forall (fun news =>
            news.1 = [] \/
            PyStr.strip news.1 ∈ BoundedDedup.set (dedup st1)) (fetch_rss f))
    as Hknown.
  { revert Hfirst. unfold update_news_cycle.
    destruct (fetch_rss f) as [|news items] eqn:Hf; [done|].
    pose proof (process_items_dedup (news :: items) (cycle_start cfg st) Hd)
      as (_ & _ & Hroom1).
    destruct Hroom1 as (_ & _ & Hk); [done|].
    destruct (process_items cfg (cycle_start cfg st) (news :: items))
      as [st' [e|]]; cbn [fst snd] in *; [discriminate|].
    specialize (Hk eq_refl).
    destruct (SHOW_EVERY_CYCLE_SUMMARY cfg); [destruct (console _ _)|];
      intros [= <-]; try done. }
  unfold update_news_cycle.
  destruct (fetch_rss f) as [|news items] eqn:Hf; [done|].
  rewrite process_items_skipped by done.
  destruct (SHOW_EVERY_CYCLE_SUMMARY cfg); [destruct (console _ _)|];
    eexists _, _; (split; [reflexivity|]); by cbn.
Qed.

Lemma update_news_cycle_consistent (st : state) (f : feed) :
  BoundedDedup.consistent (dedup st) ->
  BoundedDedup.consistent (dedup (update_news_cycle cfg st f).1) /\
  BoundedDedup.capacity (dedup (update_news_cycle cfg st f).1)
    = BoundedDedup.capacity (dedup st).
Proof.
  intros Hd. unfold update_news_cycle.
  destruct (fetch_rss f) as [|news items]; [done|].
  pose proof (process_items_dedup (news :: items) (cycle_start cfg st) Hd)
    as (Hd1 & Hc1 & _).
  destruct (process_items cfg (cycle_start cfg st) (news :: items))
    as [st1 [e|]]; cbn [fst] in *; [done|].
  by destruct (SHOW_EVERY_CYCLE_SUMMARY cfg); [destruct (console _ _)|].
Qed.

Lemma run_consistent (evs : list event) : forall st,
  BoundedDedup.consistent (dedup st) ->
  BoundedDedup.consistent (dedup (run cfg st evs).1) /\
  BoundedDedup.capacity (dedup (run cfg st evs).1)
    = BoundedDedup.capacity (dedup st).
Proof.
  induction evs as [|ev evs IH]; intros st Hd; cbn [run]; [done|].
  destruct ev as [f|method data].
  - pose proof (update_news_cycle_consistent st f Hd) as [Hd1 Hc1].
    destruct (update_news_cycle cfg st f) as [st1 [e|]]; cbn [fst] in *;
      [done|].
    destruct (IH st1 Hd1) as [Hd2 Hc2]. split; [done | congruence].
  - assert (dedup (city_request st method data) = dedup st) as Hsame.
    { unfold city_request.
      by destruct (api_city method data (USER_CITY st)) as [[resp city]|e]. }
    destruct (IH (city_request st method data)) as [Hd2 Hc2];
      [by rewrite Hsame|].
    split; [done | congruence].
Qed.

(** X15. With a capacity that the constructor accepts, whatever the worker
    goes through and whether it is still running or has been ended by an
    exception, its deduplicator never holds more than [SEEN_CAPACITY]
    titles, the set and the queue holding the same ones. *)
Theorem worker_dedup_stays_bounded (city : value) (evs : list event) :
  0 <= SEEN_CAPACITY cfg <= PY_SSIZE_T_MAX ->
  exists st o,
    update_news cfg city evs = Ok (st, o) /\
    BoundedDedup.capacity (dedup st) = SEEN_CAPACITY cfg /\
    Z.of_nat (size (BoundedDedup.set (dedup st))) <= SEEN_CAPACITY cfg /\
    BoundedDedup.set (dedup st)
      = list_to_set (Deque.items (BoundedDedup.queue (dedup st))) /\
    NoDup (Deque.items (BoundedDedup.queue (dedup st))).
Proof.
  intros Hc. unfold update_news. rewrite init_empty by done.
  cbn [mbind result_bind mret result_ret].
  destruct (init_consistent _ _ (init_empty _ Hc)) as [Hd0 Hc0].
  pose proof (run_consistent evs
                (initial city (BoundedDedup.empty (SEEN_CAPACITY cfg))) Hd0)
    as (Hd & Hcap).
  destruct (run cfg _ evs) as [st o]. cbn [fst] in *.
  exists st, o. split; [done|]. split; [by rewrite Hcap|].
  destruct Hd as (_ & _ & Hnd & Hlen & Hset).
  rewrite Hset at 1. rewrite size_list_to_set by done.
  rewrite Hcap in Hlen. by cbn in Hlen.
Qed.

(** X16. With a negative capacity the worker raises when it builds its
    deduplicator, before any cycle: [OverflowError] for a capacity below
    the smallest [Py_ssize_t], [ValueError] for any other. *)
Theorem worker_refuses_negative_capacity (city : value) (evs : list event) :
  SEEN_CAPACITY cfg < 0 ->
  update_news cfg city evs =
    Raise (if SEEN_CAPACITY cfg <? - PY_SSIZE_T_MAX - 1 then OverflowError
           else ValueError).
Proof.
  intros Hc. unfold update_news, BoundedDedup.init, Deque.new.
  assert (0 <= PY_SSIZE_T_MAX) by done.
  destruct (Z.ltb_spec (SEEN_CAPACITY cfg) (- PY_SSIZE_T_MAX - 1)); [done|].
  destruct (Z.ltb_spec PY_SSIZE_T_MAX (SEEN_CAPACITY cfg)); [lia|].
  by destruct (Z.ltb_spec (SEEN_CAPACITY cfg) 0); [|lia].
Qed.







(** X19. A new title that matches neither rule, with the client enabled, a
    key set and budget left, is sent to the remote client: one call is
    recorded and one unit of budget taken; the item carries the returned
    score, the returned label as category ("general" when the label is
    empty or [None]), and is important exactly when the label is
    "city-priority" or the score reaches [HF_SCORE_THRESHOLD], the
    threshold itself included. An item that is not important raises
    nothing. *)
Theorem remote_rule_uses_threshold (st : state) (title link city : str)
    (label : value) (score : PrimFloat.float) :
  PyStr.nonempty title = true ->
  PyStr.strip title ∉ BoundedDedup.set (dedup st) ->
  city_text (USER_CITY st) = Ok city ->
  title_matches_city title city = false ->
  keyword_prefilter title IMPORTANT_KEYWORDS = false ->
  HF_ENABLE cfg = true ->
  PyStr.nonempty (HF_API_KEY cfg) = true ->
  0 < hf_budget st ->
  hf_classify cfg (remote (length (hf_calls st)) title) title = (label, score) ->
  exists st' o item,
    process_item cfg st (title, link) = (st', o) /\
    cycle_news st' = cycle_news st ++ [item] /\
    NewsItem.category item
      = (if Py.truthy label then label else VStr (PyStr.lit "general")) /\
    NewsItem.score item = score /\
    NewsItem.is_important item
      = (Py.eq_str label (PyStr.lit "city-priority")
         || (HF_SCORE_THRESHOLD cfg <=? score)%float) /\
    hf_calls st' = hf_calls st ++ [title] /\
    hf_budget st' = hf_budget st - 1 /\
    (NewsItem.is_important item = false -> o = None).
Proof.
  intros Hne Hk Hc Hcity Hkw He Hkey Hpos Hcall.
  destruct (process_item_fresh cfg st title link city label score
              (hf_budget st - 1) (hf_calls st ++ [title]) Hne Hk Hc)
    as [d' ->].
  { unfold classify. rewrite Hcity, Hkw, He, Hkey. cbn [andb].
    destruct (Z.ltb_spec 0 (hf_budget st)); [|lia]. by rewrite Hcall. }
  rewrite Hkw. eexists _, _, _. split; [reflexivity|].
  cbn [with_item news_item cycle_news hf_calls hf_budget NewsItem.category
       NewsItem.score NewsItem.is_important andb].
  rewrite orb_false_r.
  assert (NewsItem.is_important
            (news_item cfg title link label score false (now_str (ticks st)))
          = Py.eq_str label (PyStr.lit "city-priority")
            || (HF_SCORE_THRESHOLD cfg <=? score)%float) as Himp.
  { unfold news_item. cbn [NewsItem.is_important orb]. by rewrite orb_false_r. }
  do 6 (split; [done|]). rewrite Himp. by intros ->.
Qed.

End CycleFacts.

(** ** The further properties at work on concrete feeds *)

Lemma empty_consistent (c : Z) :
  0 <= c <= PY_SSIZE_T_MAX -> BoundedDedup.consistent (BoundedDedup.empty c).
Proof. intros Hc. by apply (init_consistent c), init_empty. Qed.

(** After a first cycle that published two items, a feed with an item
    without title and an item published before empties both lists. *)
Lemma nothing_new_publishes_nothing_witness :
  length (latest_news published_state) = 2%nat /\
  exists st',
    @update_news_cycle ascii_builtins offline_world default_config
      published_state
      (Parsed [ {| e_title := Some [];
                   e_link := Some (PyStr.lit "https://example.org/4") |};
                {| e_title := Some (PyStr.lit "Fire in Delhi market");
                   e_link := Some (PyStr.lit "https://example.org/1") |} ])
      = (st', None) /\
    latest_news st' = [] /\ important_news st' = [].
Proof.
  split; [by vm_compute|].
  destruct (@nothing_new_publishes_nothing ascii_builtins offline_world
              default_config published_state
              (Parsed [ {| e_title := Some [];
                           e_link := Some (PyStr.lit "https://example.org/4") |};
                        {| e_title := Some (PyStr.lit "Fire in Delhi market");
                           e_link := Some (PyStr.lit "https://example.org/1") |} ]))
    as (st' & o & Hrun & Hl & Hi & _).
  - by vm_compute.
  - constructor; [by left|]. constructor; [|constructor].
    right. eapply bool_decide_eq_true_1. by vm_compute.
  - match type of Hrun with ?u = _ =>
      assert (u.2 = None) as Ho by (by vm_compute)
    end.
    rewrite Hrun in Ho. cbn [snd] in Ho. subst o.
    exists st'. auto.
Defined.

Lemma second_poll_publishes_nothing_witness :
  length (latest_news published_state) = 2%nat /\
  exists st2 o,
    @update_news_cycle ascii_builtins offline_world default_config
      published_state two_item_feed = (st2, o) /\
    latest_news st2 = [] /\ important_news st2 = [].
Proof.
  split; [by vm_compute|].
  destruct (@second_poll_publishes_nothing ascii_builtins offline_world
              default_config start_state published_state two_item_feed)
    as (st2 & o & Hrun & Hl & Hi & _).
  - by apply empty_consistent.
  - by vm_compute.
  - by vm_compute.
  - unfold published_state.
    rewrite (surjective_pairing (update_news_cycle _ _ _)) at 1.
    f_equal; by vm_compute.
  - exists st2, o. auto.
Defined.

Lemma worker_dedup_stays_bounded_witness :
  0 <= SEEN_CAPACITY default_config <= PY_SSIZE_T_MAX /\
  exists st o,
    @update_news ascii_builtins offline_world default_config
      (VStr (PyStr.lit "Delhi"))
      [ Cycle two_item_feed;
        Request POST (VDict [ (PyStr.lit "city", VStr (PyStr.lit "Mumbai")) ]);
        Cycle ParseRaises ] = Ok (st, o) /\
    Z.of_nat (size (BoundedDedup.set (dedup st))) <= 1000.
Proof.
  split; [by vm_compute|].
  destruct (@worker_dedup_stays_bounded ascii_builtins offline_world
              default_config (VStr (PyStr.lit "Delhi"))
              [ Cycle two_item_feed;
                Request POST
                  (VDict [ (PyStr.lit "city", VStr (PyStr.lit "Mumbai")) ]);
                Cycle ParseRaises ])
    as (st & o & Hrun & _ & Hle & _); [by vm_compute|].
  exists st, o. auto.
Defined.

(** The default configuration with another capacity for the deduplicator. *)
Lemma worker_refuses_negative_capacity_witness :
  @update_news ascii_builtins offline_world
    {| REFRESH_INTERVAL := 180; SHOW_EVERY_CYCLE_SUMMARY := true;
       HF_ENABLE := true; HF_API_KEY := []; HF_SCORE_THRESHOLD := 0.5;
       HF_MAX_PER_CYCLE := 20; SEEN_CAPACITY := -1 |}
    (VStr (PyStr.lit "Delhi")) [Cycle ParseRaises] = Raise ValueError.
Proof.
  by apply (@worker_refuses_negative_capacity ascii_builtins offline_world
              {| REFRESH_INTERVAL := 180; SHOW_EVERY_CYCLE_SUMMARY := true;
                 HF_ENABLE := true; HF_API_KEY := []; HF_SCORE_THRESHOLD := 0.5;
                 HF_MAX_PER_CYCLE := 20; SEEN_CAPACITY := -1 |}).
Defined.



(** The service answers "flood" at 0.75 and the threshold is 0.75: the
    item is important. *)
Lemma remote_rule_uses_threshold_witness :
  exists st' o item,
    @process_item ascii_builtins answering_world
      (keyed_config (PyStr.lit "hf_key") 0.75) first_cycle_state
      (PyStr.lit "River overflows its banks", PyStr.lit "https://example.org/5")
      = (st', o) /\
    cycle_news st' = [item] /\
    NewsItem.category item = VStr (PyStr.lit "flood") /\
    NewsItem.score item = 0.75%float /\
    NewsItem.is_important item = true /\
    hf_calls st' = [PyStr.lit "River overflows its banks"] /\
    hf_budget st' = 19.
Proof.
  destruct (@remote_rule_uses_threshold ascii_builtins answering_world
              (keyed_config (PyStr.lit "hf_key") 0.75) first_cycle_state
              (PyStr.lit "River overflows its banks")
              (PyStr.lit "https://example.org/5") (PyStr.lit "Delhi")
              (VStr (PyStr.lit "flood")) 0.75)
    as (st' & o & item & Hrun & Hnews & Hcat & Hscore & Himp & Hcalls & Hb & _).
  - reflexivity.
  - apply not_elem_of_empty.
  - reflexivity.
  - by vm_compute.
  - by vm_compute.
  - reflexivity.
  - reflexivity.
  - reflexivity.
  - by vm_compute.
  - exists st', o, item. split; [exact Hrun|]. split; [exact Hnews|].
    split; [exact Hcat|]. split; [exact Hscore|].
    split; [rewrite Himp; reflexivity|]. split; [exact Hcalls|]. exact Hb.
Defined.
